(** * Publish collectors of tk-config-default2

    A shallow embedding of [hooks/tk-multi-publish2/basic/collector.py]:
    the three session collectors (Substance Painter, Substance Designer,
    Blender) that build a tree of publish items under a parent item.

    The Python methods mutate item objects, call into the host engine and
    may raise.  They are embedded as computations in a state-and-exception
    monad over a [World] that holds the item store, the trace of engine
    calls and the file system.  Logging calls ([self.logger.*]) have no
    effect on items, return values or engine state and are left out. *)

From Stdlib Require Import Ascii.
From stdpp Require Import gmap strings list fin_maps.

(** ** Python values met in the collectors *)

(** A value of a plugin setting: a template name, a boolean, or [None]. *)
Inductive SettingValue :=
| VNone
| VBool (b : bool)
| VStr (s : string).

(** The object returned by [settings.get(name)] when the key is present.
    It is a plain object, hence always truthy; only its [.value] is read. *)
Record PluginSetting := { value : SettingValue }.

(** A toolkit template object, as returned by name resolution. *)
Record Template := { template_name : string }.

(** A resource of a Substance Designer package.  The two booleans are the
    results of the two [isinstance] tests of the collector. *)
Record SDResource := {
  is_SDSBSCompGraph : bool;
  is_SDMDLGraph : bool;
  getIdentifier : string
}.

(** A Substance Designer package; [getChildrenResources] is the result of
    the call with the recursive flag [True]. *)
Record SDPackage := {
  getFilePath : string;
  getChildrenResources : list SDResource
}.

(** Values stored in an item's [properties] dictionary. *)
Inductive PyVal :=
| PNone
| PStr (s : string)
| PTemplate (t : Template)
| PPackage (p : SDPackage)
| PResource (r : SDResource)
| PDict (d : gmap string string).

(** [work_template] is a Python variable holding [None] or a template. *)
Definition pv_of_template (t : option Template) : PyVal :=
  match t with
  | Some t => PTemplate t
  | None => PNone
  end.

Definition is_path_string (v : PyVal) : bool :=
  match v with
  | PStr _ => true
  | _ => false
  end.

(** Python truthiness. *)
Definition truthy_value (v : SettingValue) : bool :=
  match v with
  | VNone => false
  | VBool b => b
  | VStr s => negb (String.eqb s "")
  end.

Definition truthy_str (p : option string) : bool :=
  match p with
  | None => false
  | Some s => negb (String.eqb s "")
  end.

(** ** [os.path] on POSIX *)

Module os_path.

Definition sep : ascii := "/"%char.
Definition extsep : ascii := "."%char.
Definition pardir : string := "..".

(** [s.rfind(c)]: index of the last occurrence, [None] for Python's -1. *)
Fixpoint rfind (c : ascii) (s : string) : option nat :=
  match s with
  | EmptyString => None
  | String a r =>
      match rfind c r with
      | Some i => Some (S i)
      | None => if Ascii.eqb a c then Some 0 else None
      end
  end.

Definition startswith_sep (s : string) : bool :=
  match s with
  | String a _ => Ascii.eqb a sep
  | EmptyString => false
  end.

Fixpoint endswith_sep (s : string) : bool :=
  match s with
  | EmptyString => false
  | String a EmptyString => Ascii.eqb a sep
  | String _ r => endswith_sep r
  end.

(** [os.path.join(a, *p)] *)
Fixpoint join (path : string) (p : list string) : string :=
  match p with
  | [] => path
  | b :: p' =>
      if startswith_sep b then join b p'
      else if String.eqb path "" || endswith_sep path then join (path +:+ b) p'
      else join (path +:+ "/" +:+ b) p'
  end.

Definition all_sep (s : string) : bool :=
  forallb (fun a => Ascii.eqb a sep) (String.list_ascii_of_string s).

Fixpoint lstrip_sep (l : list ascii) : list ascii :=
  match l with
  | a :: l' => if Ascii.eqb a sep then lstrip_sep l' else l
  | [] => []
  end.

(** [s.rstrip('/')] *)
Definition rstrip_sep (s : string) : string :=
  String.string_of_list_ascii (rev (lstrip_sep (rev (String.list_ascii_of_string s)))).

(** [os.path.split(p)] *)
Definition split (p : string) : string * string :=
  let i := match rfind sep p with Some k => S k | None => 0 end in
  let head := String.substring 0 i p in
  let tail := String.substring i (String.length p - i) p in
  let head :=
    if negb (String.eqb head "") && negb (all_sep head)
    then rstrip_sep head else head in
  (head, tail).

(** [os.path.splitext(p)]: the extension starts at the last dot of the
    last component, leading dots of that component not counting. *)
Definition splitext (p : string) : string * string :=
  let sepIndex := rfind sep p in
  let filenameIndex := match sepIndex with Some k => S k | None => 0 end in
  match rfind extsep p with
  | Some dotIndex =>
      if bool_decide (filenameIndex <= dotIndex)
         && existsb (fun a => negb (Ascii.eqb a extsep))
              (String.list_ascii_of_string
                 (String.substring filenameIndex (dotIndex - filenameIndex) p))
      then (String.substring 0 dotIndex p,
            String.substring dotIndex (String.length p - dotIndex) p)
      else (p, "")
  | None => (p, "")
  end.

End os_path.

(** ** Items, file system, engine trace *)

(** Items are referred to by their index in the item store. *)
Definition ItemRef := nat.

Record Item := {
  item_type : string;
  type_display : string;
  item_name : string;
  item_parent : ItemRef;
  item_icon : option string;
  properties : gmap string PyVal
}.

Inductive FSNode :=
| FFile
| FDir (entries : list string).

(** Calls into the engine and the application, in the order made. *)
Inductive Event :=
| EvGetTemplateByName (name : SettingValue)
| EvGetCurrentProjectPath
| EvGetProjectExportPath
| EvShowBusy (title message : string)
| EvExportDocumentMaps (export_path : option string)
| EvClearBusy.

Record World := {
  items : list Item;
  trace : list Event;
  fs : gmap string FSNode
}.

Inductive exn :=
| OSError (path : string)
| TankError (msg : string)
| HostError (msg : string).

Inductive outcome (A : Type) :=
| Ok (a : A)
| Raise (e : exn).
Arguments Ok {A} a.
Arguments Raise {A} e.

(** The export result: texture-set name to (map id to exported file), in
    the order [iteritems] yields the entries. *)
Definition MapExportInfo := list (string * list (string * string)).

(** ** The monad: state that survives a raised exception *)

Definition M (A : Type) : Type := World -> outcome A * World.

Definition ret {A} (a : A) : M A := fun w => (Ok a, w).

Definition bind {A B} (m : M A) (k : A -> M B) : M B :=
  fun w =>
    match m w with
    | (Ok a, w') => k a w'
    | (Raise e, w') => (Raise e, w')
    end.

Definition raise {A} (e : exn) : M A := fun w => (Raise e, w).

Definition lift_outcome {A} (o : outcome A) : M A := fun w => (o, w).

Declare Scope py_scope.
Delimit Scope py_scope with py.
Notation "'let!' x ':=' m 'in' k" := (bind m (fun x => k))
  (at level 10, x pattern, m at level 100, k at level 200) : py_scope.
Notation "m ';;' k" := (bind m (fun _ => k))
  (at level 100, k at level 200, right associativity) : py_scope.
Local Open Scope py_scope.

(** [for x in l: s = body(s, x)], the locals the body assigns threaded
    through as [s]. *)
Fixpoint for_fold {A S} (l : list A) (s : S) (body : S -> A -> M S) : M S :=
  match l with
  | [] => ret s
  | x :: l' => let! s' := body s x in for_fold l' s' body
  end.

Definition log_event (e : Event) : M unit :=
  fun w => (Ok tt, {| items := items w; trace := trace w ++ [e]; fs := fs w |}).

(** ** Item operations of the publish framework *)

Definition set_items (f : list Item -> list Item) (w : World) : World :=
  {| items := f (items w); trace := trace w; fs := fs w |}.

(** [parent.create_item(item_type, type_display, name)] *)
Definition create_item (parent : ItemRef) (ty disp name : string) : M ItemRef :=
  fun w =>
    (Ok (length (items w)),
     set_items (fun l => l ++ [ {| item_type := ty; type_display := disp;
                                   item_name := name; item_parent := parent;
                                   item_icon := None; properties := ∅ |} ]) w).

Definition with_icon (p : string) (it : Item) : Item :=
  {| item_type := item_type it; type_display := type_display it;
     item_name := item_name it; item_parent := item_parent it;
     item_icon := Some p; properties := properties it |}.

Definition with_property (k : string) (v : PyVal) (it : Item) : Item :=
  {| item_type := item_type it; type_display := type_display it;
     item_name := item_name it; item_parent := item_parent it;
     item_icon := item_icon it; properties := <[k := v]> (properties it) |}.

(** [item.set_icon_from_path(path)].  References come from [create_item],
    so the index is always in range. *)
Definition set_icon_from_path (i : ItemRef) (p : string) : M unit :=
  fun w => (Ok tt, set_items (alter (with_icon p) i) w).

(** [item.properties[k] = v] *)
Definition set_property (i : ItemRef) (k : string) (v : PyVal) : M unit :=
  fun w => (Ok tt, set_items (alter (with_property k v) i) w).

(** An item object defines neither [__len__] nor [__nonzero__]. *)
Definition item_truthy (i : ItemRef) : bool := true.

(** ** File system *)

Definition os_path_exists (p : string) : M bool :=
  fun w => (Ok (bool_decide (is_Some (fs w !! p))), w).

(** [os.listdir(p)] raises [OSError] unless [p] is a directory. *)
Definition os_listdir (p : string) : M (list string) :=
  fun w =>
    match fs w !! p with
    | Some (FDir l) => (Ok l, w)
    | _ => (Raise (OSError p), w)
    end.

(** ** The host: engine, application and framework helpers

    What the collectors call but do not define.  [host_export] is
    [engine.app.export_document_maps]: it may write files and may raise. *)

Record Host := {
  host_disk_location : string;
  host_templates : SettingValue -> option Template;
  host_current_project_path : option string;
  host_project_export_path : option string;
  host_export :
    option string -> gmap string FSNode ->
    outcome MapExportInfo * gmap string FSNode;
  host_get_fields : Template -> option string -> outcome (gmap string string);
  host_apply_fields : Template -> gmap string string -> outcome string;
  host_filename : string -> string;
  host_user_packages : list SDPackage;
  host_bpy_filepath : string
}.

Definition SESSION_PUBLISHED_TYPE : string := "Substance Painter Project File".

Definition busy_title : string := "Exporting textures".
Definition busy_message : string :=
  "Texture are being exported so they can " +:+ "be published."
  +:+ String "010" (String "010" "Please wait...").

Section Engine.

Variable host : Host.

(** [os.path.join(self.disk_location, os.pardir, "icons", name)] *)
Definition icon (name : string) : string :=
  os_path.join (host_disk_location host) [os_path.pardir; "icons"; name].

(** *** Engine and application calls *)

Definition get_template_by_name (name : SettingValue) : M (option Template) :=
  log_event (EvGetTemplateByName name);;
  ret (host_templates host name).

Definition get_current_project_path : M (option string) :=
  log_event EvGetCurrentProjectPath;;
  ret (host_current_project_path host).

Definition get_project_export_path : M (option string) :=
  log_event EvGetProjectExportPath;;
  ret (host_project_export_path host).

Definition show_busy (title message : string) : M unit :=
  log_event (EvShowBusy title message).

Definition clear_busy : M unit := log_event EvClearBusy.

Definition export_document_maps (export_path : option string) : M MapExportInfo :=
  log_event (EvExportDocumentMaps export_path);;
  fun w =>
    let '(r, fs') := host_export host export_path (fs w) in
    (r, {| items := items w; trace := trace w; fs := fs' |}).

Definition get_fields (t : Template) (path : option string) : M (gmap string string) :=
  lift_outcome (host_get_fields host t path).

Definition apply_fields (t : Template) (fields : gmap string string) : M string :=
  lift_outcome (host_apply_fields host t fields).

(** [publisher.util.get_file_path_components(path)["filename"]] *)
Definition get_file_path_components_filename (path : string) : string :=
  host_filename host path.

(** The [if work_template_setting:] idiom shared by all collectors. *)
Definition template_of_setting (setting : option PluginSetting)
  : M (option Template) :=
  match setting with
  | Some s => get_template_by_name (value s)
  | None => ret None
  end.

End Engine.

(** ** Setting declarations

    What a collector's [settings] property returns: for each setting name
    its declared type, default and description. *)

Record SettingSchema := {
  schema_type : string;
  schema_default : SettingValue;
  schema_description : string
}.

(** [d.update(upd)]: the entries of [upd] replace those of [d]. *)
Definition dict_update {V} (d upd : gmap string V) : gmap string V := upd ∪ d.

(** The "Work Template" entry, written out alike in all three collectors. *)
Definition work_template_schema : SettingSchema :=
  {| schema_type := "template";
     schema_default := VNone;
     schema_description :=
       "Template path for artist work files. Should "
       +:+ "correspond to a template defined in "
       +:+ "templates.yml. If configured, is made available"
       +:+ "to publish plugins via the collected item's "
       +:+ "properties. " |}.

(** ** The collectors *)

Module SubstancePainterSessionCollector.
Section WithHost.

Variable host : Host.

Definition get_export_path (settings : gmap string PluginSetting)
  : M (option string) :=
  let work_template_setting := settings !! "Work Template" in
  let! work_template := template_of_setting host work_template_setting in
  let work_export_template_setting := settings !! "Work Export Template" in
  let! work_export_template := template_of_setting host work_export_template_setting in
  match work_export_template, work_template with
  | Some work_export_template, Some work_template =>
      let! path := get_current_project_path host in
      let! fields := get_fields host work_template path in
      let! export_path := apply_fields host work_export_template fields in
      ret (Some export_path)
  | _, _ => ret None
  end.

Definition collect_textures_as_folder
    (settings : gmap string PluginSetting) (parent_item : ItemRef) : M unit :=
  let! export_path := get_export_path settings in
  let! export_path :=
    if negb (truthy_str export_path) then get_project_export_path host
    else ret export_path in
  show_busy busy_title busy_message;;
  let! map_export_info := export_document_maps host export_path in
  clear_busy;;
  match export_path with
  | Some p =>
      if truthy_str export_path then
        let! textures := os_listdir p in
        match textures with
        | [] => ret tt
        | _ :: _ =>
            let! textures_item :=
              create_item parent_item "substancepainter.textures"
                "Textures" "Substance Painter Textures" in
            let icon_path := icon host "texture.png" in
            set_icon_from_path textures_item icon_path;;
            set_property textures_item "path" (PStr p);;
            set_property textures_item "publish_type" (PStr "Texture Folder")
        end
      else ret tt
  | None => ret tt
  end.

Definition collect_textures
    (settings : gmap string PluginSetting) (parent_item : ItemRef) : M unit :=
  let! export_path := get_export_path settings in
  let! export_path :=
    if negb (truthy_str export_path) then get_project_export_path host
    else ret export_path in
  show_busy busy_title busy_message;;
  let! map_export_info := export_document_maps host export_path in
  clear_busy;;
  let icon_path := icon host "texture.png" in
  for_fold map_export_info tt (fun _ '(texture_set_name, texture_set) =>
    for_fold texture_set tt (fun _ '(texture_id, texture_file) =>
      let! ex := os_path_exists texture_file in
      if ex then
        let filenamefile := snd (os_path.split texture_file) in
        let texture_name := fst (os_path.splitext filenamefile) in
        let! textures_item :=
          create_item parent_item "substancepainter.texture"
            "Texture" texture_name in
        set_icon_from_path textures_item icon_path;;
        set_property textures_item "path" (PStr texture_file);;
        set_property textures_item "publish_type" (PStr "Texture")
      else ret tt)).

Definition collect_current_substancepainter_session
    (settings : gmap string PluginSetting) (parent_item : ItemRef) : M ItemRef :=
  let! path := get_current_project_path host in
  let display_name :=
    match path with
    | Some p =>
        if truthy_str path then get_file_path_components_filename host p
        else "Current Substance Painter Session"
    | None => "Current Substance Painter Session"
    end in
  let! session_item :=
    create_item parent_item "substancepainter.session"
      "Substance Painter Session" display_name in
  let icon_path := icon host "session.png" in
  set_icon_from_path session_item icon_path;;
  let work_template_setting := settings !! "Work Template" in
  match work_template_setting with
  | Some s =>
      let! work_template := get_template_by_name host (value s) in
      set_property session_item "work_template" (pv_of_template work_template);;
      set_property session_item "publish_type" (PStr SESSION_PUBLISHED_TYPE);;
      ret session_item
  | None => ret session_item
  end.

Definition process_current_session
    (settings : gmap string PluginSetting) (parent_item : ItemRef) : M unit :=
  let! item := collect_current_substancepainter_session settings parent_item in
  if item_truthy item then
    let publish_as_folder_setting := settings !! "Publish Textures as Folder" in
    match publish_as_folder_setting with
    | Some s =>
        if truthy_value (value s)
        then collect_textures_as_folder settings item
        else collect_textures settings item
    | None => collect_textures settings item
    end
  else ret tt.

(** The [settings] property; [base] is what the base class's property
    returns ([None] or a dictionary). *)
Definition settings (base : option (gmap string SettingSchema))
  : gmap string SettingSchema :=
  let collector_settings := default ∅ base in
  let substancepainter_session_settings : gmap string SettingSchema :=
    {[ "Work Template" := work_template_schema;
       "Work Export Template" :=
         {| schema_type := "template";
            schema_default := VNone;
            schema_description :=
              "Template path for where the textures are "
              +:+ "exported. Should correspond to a template defined in "
              +:+ "templates.yml." |};
       "Publish Textures as Folder" :=
         {| schema_type := "bool";
            schema_default := VBool true;
            schema_description :=
              "Publish Substance Painter textures as a folder."
              +:+ "If true (default) textures will be all exported"
              +:+ " together as a folder publish."
              +:+ "If false, each texture will be exported and"
              +:+ " published as each own version stream." |} ]} in
  dict_update collector_settings substancepainter_session_settings.

End WithHost.
End SubstancePainterSessionCollector.

(** What [process_current_session] of the Designer collector hands back:
    a Python list whose elements are items or lists again. *)
Inductive PyRet :=
| RItem (i : ItemRef)
| RList (l : list PyRet).

Definition py_of_items (l : list ItemRef) : PyRet := RList (map RItem l).

Module SubstanceDesignerSessionCollector.
Section WithHost.

Variable host : Host.

(** One resource of the walk over [pck.getChildrenResources(True)]; the
    locals [items], [has_mdl_graphs] and [has_comp_graphs] are threaded. *)
Definition collect_resource (pck : SDPackage) (pck_item : ItemRef)
    (work_template : option Template)
    (st : list ItemRef * bool * bool) (resource : SDResource)
  : M (list ItemRef * bool * bool) :=
  let '(items, has_mdl_graphs, has_comp_graphs) := st in
  let! (items, has_comp_graphs) :=
    if is_SDSBSCompGraph resource then
      let graph_id := getIdentifier resource in
      let! graph_item :=
        create_item pck_item "substancedesigner.graph.textures"
          "Textures" (graph_id +:+ " Textures") in
      let icon_path := icon host "texture.png" in
      set_icon_from_path graph_item icon_path;;
      set_property graph_item "package" (PPackage pck);;
      set_property graph_item "resource" (PResource resource);;
      set_property graph_item "work_template" (pv_of_template work_template);;
      set_property graph_item "publish_type" (PStr "Texture Folder");;
      set_property graph_item "extra_fields"
        (PDict {[ "substancedesigner.graph.name" := graph_id ]});;
      ret (items ++ [graph_item], true)
    else ret (items, has_comp_graphs) in
  if is_SDMDLGraph resource then
    let graph_id := getIdentifier resource in
    let! graph_item :=
      create_item pck_item "substancedesigner.graph.mdle"
        "Graph as MDLE" (graph_id +:+ " MDLE") in
    let icon_path := icon host "substancedesigner_graph_mdle.png" in
    set_icon_from_path graph_item icon_path;;
    set_property graph_item "package" (PPackage pck);;
    set_property graph_item "resource" (PResource resource);;
    set_property graph_item "work_template" (pv_of_template work_template);;
    set_property graph_item "publish_type" (PStr "MDLE File");;
    set_property graph_item "extra_fields"
      (PDict {[ "substancedesigner.graph.name" := graph_id ]});;
    let items := items ++ [graph_item] in
    let graph_id := getIdentifier resource in
    let! graph_item :=
      create_item pck_item "substancedesigner.graph.preset"
        "Graph as preset" (graph_id +:+ " Preset(mdl)") in
    let icon_path := icon host "substancedesigner_graph_preset.png" in
    set_icon_from_path graph_item icon_path;;
    set_property graph_item "package" (PPackage pck);;
    set_property graph_item "resource" (PResource resource);;
    set_property graph_item "work_template" (pv_of_template work_template);;
    set_property graph_item "publish_type" (PStr "MDL File");;
    set_property graph_item "extra_fields"
      (PDict {[ "substancedesigner.graph.name" := graph_id ]});;
    ret (items ++ [graph_item], true, has_comp_graphs)
  else ret (items, has_mdl_graphs, has_comp_graphs).

(** The body of [for pck in user_pcks:]. *)
Definition collect_package (parent_item : ItemRef)
    (work_template : option Template)
    (items : list ItemRef) (pck : SDPackage) : M (list ItemRef) :=
  let pck_filepath := getFilePath pck in
  let pck_id := get_file_path_components_filename host pck_filepath in
  let! pck_item :=
    create_item parent_item "substancedesigner.package"
      "Substance Designer Package" pck_id in
  let icon_path := icon host "substancedesigner.png" in
  set_icon_from_path pck_item icon_path;;
  set_property pck_item "package" (PPackage pck);;
  set_property pck_item "work_template" (pv_of_template work_template);;
  set_property pck_item "publish_type" (PStr "Substance Designer File");;
  let items := items ++ [pck_item] in
  let! (items, has_mdl_graphs, has_comp_graphs) :=
    for_fold (getChildrenResources pck) (items, false, false)
      (collect_resource pck pck_item work_template) in
  let! items :=
    if has_mdl_graphs : bool then
      let! pck_mdl_item :=
        create_item pck_item "substancedesigner.package.mdl"
          "Package as MDL Module" (pck_id +:+ " MDL Module") in
      let icon_path := icon host "substancedesigner_graph_mdl.png" in
      set_icon_from_path pck_mdl_item icon_path;;
      set_property pck_mdl_item "package" (PPackage pck);;
      set_property pck_mdl_item "work_template" (pv_of_template work_template);;
      set_property pck_mdl_item "publish_type" (PStr "MDL File");;
      ret (items ++ [pck_mdl_item])
    else ret items in
  if has_comp_graphs : bool then
    let! pck_archive_item :=
      create_item pck_item "substancedesigner.package.archive"
        "Substance Designer Package Archive" (pck_id +:+ " Archive") in
    let icon_path := icon host "substancedesignerarchive.png" in
    set_icon_from_path pck_archive_item icon_path;;
    set_property pck_archive_item "package" (PPackage pck);;
    set_property pck_archive_item "work_template" (pv_of_template work_template);;
    set_property pck_archive_item "publish_type"
      (PStr "Substance Designer Archive");;
    ret (items ++ [pck_archive_item])
  else ret items.

Definition collect_current_substancedesigner_session
    (settings : gmap string PluginSetting) (parent_item : ItemRef)
  : M (list ItemRef) :=
  let work_template_setting := settings !! "Work Template" in
  let! work_template := template_of_setting host work_template_setting in
  let user_pcks := host_user_packages host in
  for_fold user_pcks [] (collect_package parent_item work_template).

(** [session_item] holds the list returned above; a list is truthy
    when it is not empty, and [items.append] adds it as one element. *)
Definition process_current_session
    (settings : gmap string PluginSetting) (parent_item : ItemRef)
  : M (list (list ItemRef)) :=
  let items := [] in
  let! session_item :=
    collect_current_substancedesigner_session settings parent_item in
  match session_item with
  | _ :: _ => ret (items ++ [session_item])
  | [] => ret items
  end.

(** The returned object as a Python value. *)
Definition process_current_session_value
    (settings : gmap string PluginSetting) (parent_item : ItemRef) : M PyRet :=
  let! items := process_current_session settings parent_item in
  ret (RList (map py_of_items items)).

(** The [settings] property. *)
Definition settings (base : option (gmap string SettingSchema))
  : gmap string SettingSchema :=
  let collector_settings := default ∅ base in
  let substancedesigner_session_settings : gmap string SettingSchema :=
    {[ "Work Template" := work_template_schema ]} in
  dict_update collector_settings substancedesigner_session_settings.

End WithHost.
End SubstanceDesignerSessionCollector.

Module BlenderSessionCollector.
Section WithHost.

Variable host : Host.

Definition _collect_session_geometry (parent_item : ItemRef) : M unit :=
  let! geo_item :=
    create_item parent_item "blender.session.geometry"
      "Geometry" "All Session Geometry" in
  let icon_path := icon host "geometry.png" in
  set_icon_from_path geo_item icon_path.

Definition collect_current_blender_session
    (settings : gmap string PluginSetting) (parent_item : ItemRef) : M ItemRef :=
  let path := host_bpy_filepath host in
  let display_name :=
    if truthy_str (Some path) then get_file_path_components_filename host path
    else "Current Blender Session" in
  let! session_item :=
    create_item parent_item "blender.session" "Blender Session" display_name in
  let icon_path := icon host "blender.png" in
  set_icon_from_path session_item icon_path;;
  let work_template_setting := settings !! "Work Template" in
  match work_template_setting with
  | Some s =>
      let! work_template := get_template_by_name host (value s) in
      set_property session_item "work_template" (pv_of_template work_template);;
      set_property session_item "publish_type" (PStr "Blender Project File");;
      ret session_item
  | None => ret session_item
  end.

Definition process_current_session
    (settings : gmap string PluginSetting) (parent_item : ItemRef) : M unit :=
  let! item := collect_current_blender_session settings parent_item in
  _collect_session_geometry item.

(** The [settings] property. *)
Definition settings (base : option (gmap string SettingSchema))
  : gmap string SettingSchema :=
  let collector_settings := default ∅ base in
  let blender_session_settings : gmap string SettingSchema :=
    {[ "Work Template" := work_template_schema ]} in
  dict_update collector_settings blender_session_settings.

End WithHost.
End BlenderSessionCollector.

(** ** Vocabulary of the statements *)

Fixpoint count_if {A} (p : A -> bool) (l : list A) : nat :=
  match l with
  | [] => 0
  | x :: l' => (if p x then 1 else 0) + count_if p l'
  end.

Definition type_is (ty : string) (it : Item) : bool :=
  String.eqb (item_type it) ty.

(** Does the reference [i] denote an item of type [ty] in the store of [w]? *)
Definition has_type (w : World) (ty : string) (i : ItemRef) : bool :=
  match items w !! i with
  | Some it => type_is ty it
  | None => false
  end.

(** The path handed to [export_document_maps]: the template path when it
    is truthy, else the application's own export path. *)
Definition export_path_or_project (host : Host) (export_path : option string)
  : option string :=
  if negb (truthy_str export_path) then host_project_export_path host
  else export_path.

(** The store after one more item. *)
Definition push_item (x : Item) (w : World) : World :=
  {| items := items w ++ [x]; trace := trace w; fs := fs w |}.

(** The items a computation adds to the store when run from [w]. *)
Definition created_items {A} (m : M A) (w : World) : list Item :=
  drop (length (items w)) (items (snd (m w))).

(** What may sit under the [work_template] key of an item: the value the
    collector's [work_template] variable holds after name resolution by
    [get_template_by_name], never a path string. *)
Definition stored_template_unresolved (host : Host)
    (settings : gmap string PluginSetting) (it : Item) : Prop :=
  forall v, properties it !! "work_template" = Some v ->
    is_path_string v = false /\
    match settings !! "Work Template" with
    | Some s => v = pv_of_template (host_templates host (value s))
    | None => v = PNone
    end.

(** Engine calls that only read. *)
Definition is_query (e : Event) : Prop :=
  match e with
  | EvGetTemplateByName _ | EvGetCurrentProjectPath | EvGetProjectExportPath => True
  | EvShowBusy _ _ | EvExportDocumentMaps _ | EvClearBusy => False
  end.

(** All files of an export result, in iteration order. *)
Definition exported_files (info : MapExportInfo) : list string :=
  flat_map (fun '(_, texture_set) => map snd texture_set) info.

(** The item built by [collect_textures_as_folder] for directory [p]. *)
Definition textures_folder_item (host : Host) (parent : ItemRef) (p : string)
  : Item :=
  with_property "publish_type" (PStr "Texture Folder")
    (with_property "path" (PStr p)
       (with_icon (icon host "texture.png")
          {| item_type := "substancepainter.textures";
             type_display := "Textures";
             item_name := "Substance Painter Textures";
             item_parent := parent; item_icon := None; properties := ∅ |})).

(** The item built by [collect_textures] for one exported file. *)
Definition texture_item (host : Host) (parent : ItemRef) (file : string)
  : Item :=
  with_property "publish_type" (PStr "Texture")
    (with_property "path" (PStr file)
       (with_icon (icon host "texture.png")
          {| item_type := "substancepainter.texture";
             type_display := "Texture";
             item_name := fst (os_path.splitext (snd (os_path.split file)));
             item_parent := parent; item_icon := None; properties := ∅ |})).

(** *** What the Designer walk appends, as lists

    The Designer collector never raises and touches nothing but the item
    store, so what it does is a list of items appended.  The functions
    below spell that list out; [designer_session_run] further down proves
    that the collector appends exactly it. *)

(** The shape shared by the package item and the two package-level items. *)
Definition designer_package_shape (host : Host) (ty disp name icon_name pt : string)
    (pck : SDPackage) (parent : ItemRef) (wt : option Template) : Item :=
  with_property "publish_type" (PStr pt)
    (with_property "work_template" (pv_of_template wt)
       (with_property "package" (PPackage pck)
          (with_icon (icon host icon_name)
             {| item_type := ty; type_display := disp; item_name := name;
                item_parent := parent; item_icon := None; properties := ∅ |}))).

(** The shape shared by the three per-graph items. *)
Definition designer_graph_shape (host : Host) (ty disp suffix icon_name pt : string)
    (pck : SDPackage) (pck_item : ItemRef) (wt : option Template)
    (resource : SDResource) : Item :=
  with_property "extra_fields"
    (PDict {[ "substancedesigner.graph.name" := getIdentifier resource ]})
    (with_property "publish_type" (PStr pt)
       (with_property "work_template" (pv_of_template wt)
          (with_property "resource" (PResource resource)
             (with_property "package" (PPackage pck)
                (with_icon (icon host icon_name)
                   {| item_type := ty; type_display := disp;
                      item_name := getIdentifier resource +:+ suffix;
                      item_parent := pck_item; item_icon := None;
                      properties := ∅ |}))))).

Definition resource_items (host : Host) (pck : SDPackage) (pck_item : ItemRef)
    (wt : option Template) (resource : SDResource) : list Item :=
  (if is_SDSBSCompGraph resource then
     [designer_graph_shape host "substancedesigner.graph.textures" "Textures"
        " Textures" "texture.png" "Texture Folder" pck pck_item wt resource]
   else [])
  ++
  (if is_SDMDLGraph resource then
     [designer_graph_shape host "substancedesigner.graph.mdle" "Graph as MDLE"
        " MDLE" "substancedesigner_graph_mdle.png" "MDLE File"
        pck pck_item wt resource;
      designer_graph_shape host "substancedesigner.graph.preset" "Graph as preset"
        " Preset(mdl)" "substancedesigner_graph_preset.png" "MDL File"
        pck pck_item wt resource]
   else []).

(** Items of one package when the store holds [n] items before it. *)
Definition package_items (host : Host) (parent : ItemRef) (wt : option Template)
    (n : nat) (pck : SDPackage) : list Item :=
  let pck_id := get_file_path_components_filename host (getFilePath pck) in
  let rs := getChildrenResources pck in
  [designer_package_shape host "substancedesigner.package"
     "Substance Designer Package" pck_id "substancedesigner.png"
     "Substance Designer File" pck parent wt]
  ++ flat_map (resource_items host pck n wt) rs
  ++ (if existsb is_SDMDLGraph rs then
        [designer_package_shape host "substancedesigner.package.mdl"
           "Package as MDL Module" (pck_id +:+ " MDL Module")
           "substancedesigner_graph_mdl.png" "MDL File" pck n wt]
      else [])
  ++ (if existsb is_SDSBSCompGraph rs then
        [designer_package_shape host "substancedesigner.package.archive"
           "Substance Designer Package Archive" (pck_id +:+ " Archive")
           "substancedesignerarchive.png" "Substance Designer Archive" pck n wt]
      else []).

Fixpoint session_items (host : Host) (parent : ItemRef) (wt : option Template)
    (n : nat) (pcks : list SDPackage) : list Item :=
  match pcks with
  | [] => []
  | pck :: pcks' =>
      let new := package_items host parent wt n pck in
      new ++ session_items host parent wt (n + length new) pcks'
  end.

(** ** Sample sessions *)

Definition sample_root : Item :=
  {| item_type := "root"; type_display := "Root"; item_name := "__root__";
     item_parent := 0; item_icon := None; properties := ∅ |}.

(** A publish tree holding only the root item, over the file system [f]. *)
Definition sample_world (f : gmap string FSNode) : World :=
  {| items := [sample_root]; trace := []; fs := f |}.

Definition sample_export_info (d : string) : MapExportInfo :=
  [("set1", [("diffuse", os_path.join d ["a_diffuse.png"]);
             ("normal", os_path.join d ["a_normal.png"])])].

Definition sample_package : SDPackage :=
  {| getFilePath := "/proj/wood.sbs";
     getChildrenResources :=
       [ {| is_SDSBSCompGraph := true; is_SDMDLGraph := false;
            getIdentifier := "wood" |};
         {| is_SDSBSCompGraph := false; is_SDMDLGraph := true;
            getIdentifier := "wood_mdl" |} ] |}.

(** A host whose export writes two maps into the directory it is given. *)
Definition sample_host : Host :=
  {| host_disk_location := "/config/hooks/tk-multi-publish2/basic";
     host_templates := fun v =>
       match v with
       | VStr s => if String.eqb s "" then None else Some {| template_name := s |}
       | _ => None
       end;
     host_current_project_path := Some "/proj/work/wood.spp";
     host_project_export_path := Some "/tmp";
     host_export := fun ep f =>
       match ep with
       | Some d =>
           (Ok (sample_export_info d),
            <[d := FDir ["a_diffuse.png"; "a_normal.png"]]>
              (<[os_path.join d ["a_diffuse.png"] := FFile]>
                 (<[os_path.join d ["a_normal.png"] := FFile]> f)))
       | None => (Raise (HostError "no export path"), f)
       end;
     host_get_fields := fun _ _ => Ok {[ "name" := "wood" ]};
     host_apply_fields := fun _ flds =>
       Ok ("/proj/export/" +:+ default "" (flds !! "name"));
     host_filename := fun path => snd (os_path.split path);
     host_user_packages := [sample_package];
     host_bpy_filepath := "/proj/work/scene.blend" |}.

(** The same session with an export that returns without writing. *)
Definition silent_host : Host :=
  {| host_disk_location := host_disk_location sample_host;
     host_templates := host_templates sample_host;
     host_current_project_path := host_current_project_path sample_host;
     host_project_export_path := Some "/exp";
     host_export := fun _ f => (Ok [], f);
     host_get_fields := host_get_fields sample_host;
     host_apply_fields := host_apply_fields sample_host;
     host_filename := host_filename sample_host;
     host_user_packages := host_user_packages sample_host;
     host_bpy_filepath := host_bpy_filepath sample_host |}.

(** The same session with an export that fails. *)
Definition failing_host : Host :=
  {| host_disk_location := host_disk_location sample_host;
     host_templates := host_templates sample_host;
     host_current_project_path := host_current_project_path sample_host;
     host_project_export_path := host_project_export_path sample_host;
     host_export := fun _ f => (Raise (HostError "export failed"), f);
     host_get_fields := host_get_fields sample_host;
     host_apply_fields := host_apply_fields sample_host;
     host_filename := host_filename sample_host;
     host_user_packages := host_user_packages sample_host;
     host_bpy_filepath := host_bpy_filepath sample_host |}.

Definition sample_settings : gmap string PluginSetting :=
  {[ "Work Template" := {| value := VStr "substancepainter_work" |};
     "Work Export Template" := {| value := VStr "substancepainter_export" |};
     "Publish Textures as Folder" := {| value := VBool true |} ]}.

(** ** Further vocabulary and sample sessions *)

(** The mode [process_current_session] of the Painter collector selects:
    folder mode only when the setting is present with a truthy value. *)
Definition folder_mode (settings : gmap string PluginSetting) : bool :=
  match settings !! "Publish Textures as Folder" with
  | Some s => truthy_value (value s)
  | None => false
  end.

(** The events a computation adds to the trace when run from [w]. *)
Definition new_events {A} (m : M A) (w : World) : list Event :=
  drop (length (trace w)) (trace (snd (m w))).

(** The publish type the Designer collector gives to each item type. *)
Definition designer_publish_type (ty : string) : option string :=
  if String.eqb ty "substancedesigner.package" then Some "Substance Designer File"
  else if String.eqb ty "substancedesigner.graph.textures" then Some "Texture Folder"
  else if String.eqb ty "substancedesigner.graph.mdle" then Some "MDLE File"
  else if String.eqb ty "substancedesigner.graph.preset" then Some "MDL File"
  else if String.eqb ty "substancedesigner.package.mdl" then Some "MDL File"
  else if String.eqb ty "substancedesigner.package.archive"
       then Some "Substance Designer Archive"
  else None.

Definition designer_graph_types : list string :=
  ["substancedesigner.graph.textures"; "substancedesigner.graph.mdle";
   "substancedesigner.graph.preset"].

(** The [work_template] variable after the shared resolution idiom. *)
Definition resolved_work_template (host : Host)
    (settings : gmap string PluginSetting) : option Template :=
  match settings !! "Work Template" with
  | Some s => host_templates host (value s)
  | None => None
  end.

Definition has_mdl_graph (pck : SDPackage) : bool :=
  existsb is_SDMDLGraph (getChildrenResources pck).

Definition has_comp_graph (pck : SDPackage) : bool :=
  existsb is_SDSBSCompGraph (getChildrenResources pck).

(** The icon file each item type is given. *)
Definition icon_file_of_type (ty : string) : option string :=
  if String.eqb ty "substancepainter.session" then Some "session.png"
  else if String.eqb ty "substancepainter.textures" then Some "texture.png"
  else if String.eqb ty "substancepainter.texture" then Some "texture.png"
  else if String.eqb ty "substancedesigner.package" then Some "substancedesigner.png"
  else if String.eqb ty "substancedesigner.graph.textures" then Some "texture.png"
  else if String.eqb ty "substancedesigner.graph.mdle"
       then Some "substancedesigner_graph_mdle.png"
  else if String.eqb ty "substancedesigner.graph.preset"
       then Some "substancedesigner_graph_preset.png"
  else if String.eqb ty "substancedesigner.package.mdl"
       then Some "substancedesigner_graph_mdl.png"
  else if String.eqb ty "substancedesigner.package.archive"
       then Some "substancedesignerarchive.png"
  else if String.eqb ty "blender.session" then Some "blender.png"
  else if String.eqb ty "blender.session.geometry" then Some "geometry.png"
  else None.

(** An item whose icon is the one of its type, in the hook's icon folder. *)
Definition has_icon_of_type (host : Host) (it : Item) : Prop :=
  exists name,
    icon_file_of_type (item_type it) = Some name /\
    item_icon it = Some (icon host name).

(** A session with nothing open: no project, no scene path, no package. *)
Definition idle_host : Host :=
  {| host_disk_location := host_disk_location sample_host;
     host_templates := host_templates sample_host;
     host_current_project_path := None;
     host_project_export_path := host_project_export_path sample_host;
     host_export := host_export sample_host;
     host_get_fields := host_get_fields sample_host;
     host_apply_fields := host_apply_fields sample_host;
     host_filename := host_filename sample_host;
     host_user_packages := [];
     host_bpy_filepath := "" |}.

(** The sample session with a work template the project path does not
    match. *)
Definition mismatch_host : Host :=
  {| host_disk_location := host_disk_location sample_host;
     host_templates := host_templates sample_host;
     host_current_project_path := host_current_project_path sample_host;
     host_project_export_path := host_project_export_path sample_host;
     host_export := host_export sample_host;
     host_get_fields := fun _ _ => Raise (TankError "path does not match template");
     host_apply_fields := host_apply_fields sample_host;
     host_filename := host_filename sample_host;
     host_user_packages := host_user_packages sample_host;
     host_bpy_filepath := host_bpy_filepath sample_host |}.

(** Settings present but left at their [None] default. *)
Definition unconfigured_settings : gmap string PluginSetting :=
  {[ "Work Template" := {| value := VNone |};
     "Work Export Template" := {| value := VNone |} ]}.

Definition folder_only_settings : gmap string PluginSetting :=
  {[ "Publish Textures as Folder" := {| value := VBool true |} ]}.

Definition sample_base_settings : gmap string SettingSchema :=
  {[ "Work Template" :=
       {| schema_type := "string"; schema_default := VStr "base";
          schema_description := "overridden" |};
     "File Types" :=
       {| schema_type := "list"; schema_default := VNone;
          schema_description := "kept" |} ]}.

(** * Properties *)

(** ** Running straight-line item code *)

Lemma alter_last {A} (f : A -> A) (l : list A) (x : A) :
  alter f (length l) (l ++ [x]) = l ++ [f x].
Proof.
  induction l as [|a l IH]; simpl; [reflexivity|].
  f_equal. exact IH.
Qed.

Lemma bind_ok {A B} (m : M A) (k : A -> M B) (w w' : World) (a : A) :
  m w = (Ok a, w') -> bind m k w = k a w'.
Proof. intros H. unfold bind. rewrite H. reflexivity. Qed.

Lemma bind_raise {A B} (m : M A) (k : A -> M B) (w w' : World) (e : exn) :
  m w = (Raise e, w') -> bind m k w = (Raise e, w').
Proof. intros H. unfold bind. rewrite H. reflexivity. Qed.

Lemma created_items_app {A} (m : M A) (w : World) (new : list Item) :
  items (snd (m w)) = items w ++ new -> created_items m w = new.
Proof.
  intros H. unfold created_items. rewrite H, drop_app_length. reflexivity.
Qed.

Ltac run_items :=
  cbv [bind ret set_icon_from_path set_property create_item set_items
       log_event lift_outcome get_template_by_name template_of_setting];
  cbn [items trace fs fst snd];
  rewrite ?alter_last.

(** ** Blender *)

Section BlenderFacts.
Import BlenderSessionCollector.
Variable host : Host.

(** C9: [process_current_session] of the Blender collector always returns
    normally having appended exactly two items: one [blender.session] item
    under the given parent and one [blender.session.geometry] item named
    "All Session Geometry" under that session item, whatever the settings
    hold.  The geometry item has its icon set and an empty property
    dictionary. *)
Theorem blender_session_and_geometry
    (settings : gmap string PluginSetting) (parent : ItemRef) (w : World) :
  exists sess geo w',
    process_current_session host settings parent w = (Ok tt, w') /\
    items w' = items w ++ [sess; geo] /\
    item_type sess = "blender.session" /\
    item_parent sess = parent /\
    item_type geo = "blender.session.geometry" /\
    item_name geo = "All Session Geometry" /\
    item_parent geo = length (items w) /\
    item_icon geo = Some (icon host "geometry.png") /\
    properties geo = ∅.
Proof.
  unfold process_current_session, collect_current_blender_session,
    _collect_session_geometry.
  destruct (settings !! "Work Template") as [ws|]; run_items;
    do 3 eexists; (split; [reflexivity|]); cbn [items];
    rewrite <- app_assoc; repeat split.
Qed.

Lemma blender_session_run
    (settings : gmap string PluginSetting) (parent : ItemRef) :
  exists sess evs,
    (forall w,
       collect_current_blender_session host settings parent w =
       (Ok (length (items w)),
        {| items := items w ++ [sess]; trace := trace w ++ evs; fs := fs w |}))
    /\ item_type sess = "blender.session"
    /\ match settings !! "Work Template" with
       | Some s =>
           properties sess !! "work_template" =
             Some (pv_of_template (host_templates host (value s)))
           /\ properties sess !! "publish_type" = Some (PStr "Blender Project File")
       | None =>
           properties sess !! "work_template" = None
           /\ properties sess !! "publish_type" = None
       end.
Proof.
  unfold collect_current_blender_session.
  destruct (settings !! "Work Template") as [s|].
  - do 2 eexists.
    split; [intros w; run_items; rewrite <- ?app_assoc; reflexivity|].
    cbn; repeat split.
  - eexists. exists [].
    split; [intros w; run_items; rewrite app_nil_r; reflexivity|].
    cbn; repeat split.
Qed.

Lemma blender_process_created
    (settings : gmap string PluginSetting) (parent : ItemRef) (w : World) :
  exists sess geo,
    created_items (process_current_session host settings parent) w = [sess; geo]
    /\ match settings !! "Work Template" with
       | Some s =>
           properties sess !! "work_template" =
             Some (pv_of_template (host_templates host (value s)))
       | None => properties sess !! "work_template" = None
       end
    /\ properties geo = ∅.
Proof.
  destruct (blender_session_run settings parent)
    as (sess & evs & Hrun & _ & Hprops).
  exists sess. eexists. split; [|split].
  - apply created_items_app. unfold process_current_session.
    rewrite (bind_ok _ _ _ _ _ (Hrun w)).
    unfold _collect_session_geometry. run_items.
    rewrite <- app_assoc. reflexivity.
  - destruct (settings !! "Work Template"); tauto.
  - reflexivity.
Qed.

End BlenderFacts.

(** ** Substance Painter *)

Ltac run_engine :=
  cbv [bind ret set_icon_from_path set_property create_item set_items
       log_event lift_outcome get_template_by_name template_of_setting
       get_current_project_path get_project_export_path show_busy clear_busy
       export_document_maps get_fields apply_fields os_listdir os_path_exists];
  cbn [items trace fs fst snd];
  rewrite ?alter_last.

Ltac norm_world :=
  run_engine; rewrite <- ?app_assoc; cbn [app]; rewrite ?app_nil_r.

Section PainterFacts.
Import SubstancePainterSessionCollector.
Variable host : Host.

(** [get_export_path] only queries the engine: its result does not depend
    on the world, and it leaves items and files alone. *)
Lemma get_export_path_frame (settings : gmap string PluginSetting) :
  exists r evs,
    (forall w, get_export_path host settings w =
               (r, {| items := items w; trace := trace w ++ evs; fs := fs w |}))
    /\ Forall is_query evs.
Proof.
  unfold get_export_path.
  destruct (settings !! "Work Template") as [ws|];
    destruct (settings !! "Work Export Template") as [es|]; run_engine;
    repeat match goal with
      | |- context [match ?x with _ => _ end] => destruct x
      end;
    first
      [ solve [ eexists _, []; split;
                [ intros [its tr f]; cbn; rewrite ?app_nil_r; reflexivity
                | constructor ] ]
      | eexists _, _; split;
        [ intros [its tr f]; cbn; rewrite <- ?app_assoc; reflexivity
        | repeat constructor ] ].
Qed.

(** C5: [get_export_path] returns [None] whenever the Work Template or
    the Work Export Template setting is absent.  When both are present and
    name the templates [wt] and [wet], it returns exactly what applying
    [wet] to the fields that [wt] extracts from the current project path
    gives (an error of either template call propagating unchanged). *)
Theorem get_export_path_spec
    (settings : gmap string PluginSetting) (w : World) :
  (settings !! "Work Template" = None \/
   settings !! "Work Export Template" = None ->
   fst (get_export_path host settings w) = Ok None)
  /\
  (forall ws es wt wet,
     settings !! "Work Template" = Some ws ->
     settings !! "Work Export Template" = Some es ->
     host_templates host (value ws) = Some wt ->
     host_templates host (value es) = Some wet ->
     fst (get_export_path host settings w) =
       match host_get_fields host wt (host_current_project_path host) with
       | Ok fields =>
           match host_apply_fields host wet fields with
           | Ok export_path => Ok (Some export_path)
           | Raise e => Raise e
           end
       | Raise e => Raise e
       end).
Proof.
  split.
  - intros H. unfold get_export_path.
    destruct (settings !! "Work Template") as [ws|] eqn:Hw;
      destruct (settings !! "Work Export Template") as [es|] eqn:He;
      run_engine;
      try (destruct H; discriminate);
      repeat match goal with
        | |- context [match ?x with _ => _ end] => destruct x
        end; reflexivity.
  - intros ws es wt wet Hw He Hwt Hwet. unfold get_export_path.
    rewrite Hw, He. run_engine. rewrite Hwt, Hwet.
    destruct (host_get_fields host wt (host_current_project_path host)) as [flds|e];
      [|reflexivity].
    destruct (host_apply_fields host wet flds); reflexivity.
Qed.

(** Folder mode, once the export path is resolved: every way it can end. *)
Lemma collect_textures_as_folder_run
    (settings : gmap string PluginSetting) (parent : ItemRef) (ep0 : option string)
    (w0 : World) :
  fst (get_export_path host settings w0) = Ok ep0 ->
  exists pre, Forall is_query pre /\ forall w,
    let ep := export_path_or_project host ep0 in
    let busy := [EvShowBusy busy_title busy_message; EvExportDocumentMaps ep] in
    collect_textures_as_folder host settings parent w =
    match host_export host ep (fs w) with
    | (Raise e, fs1) =>
        (Raise e, {| items := items w; trace := trace w ++ pre ++ busy; fs := fs1 |})
    | (Ok info, fs1) =>
        let tr := trace w ++ pre ++ busy ++ [EvClearBusy] in
        let same := {| items := items w; trace := tr; fs := fs1 |} in
        match ep with
        | Some p =>
            if truthy_str ep then
              match fs1 !! p with
              | Some (FDir []) => (Ok tt, same)
              | Some (FDir (_ :: _)) =>
                  (Ok tt, {| items := items w ++ [textures_folder_item host parent p];
                             trace := tr; fs := fs1 |})
              | _ => (Raise (OSError p), same)
              end
            else (Ok tt, same)
        | None => (Ok tt, same)
        end
    end.
Proof.
  intros Hep.
  destruct (get_export_path_frame settings) as (r & evs & Hrun & Hq).
  assert (r = Ok ep0) as ->.
  { rewrite Hrun in Hep. exact Hep. }
  exists (evs ++ if negb (truthy_str ep0) then [EvGetProjectExportPath] else []).
  split.
  { apply Forall_app. split; [exact Hq|].
    destruct (negb (truthy_str ep0)); repeat constructor. }
  intros w. unfold collect_textures_as_folder, export_path_or_project.
  cbv [bind]. rewrite Hrun.
  destruct (negb (truthy_str ep0)); run_engine;
    destruct (host_export host _ (fs w)) as [[info|e] fs1];
    norm_world; try reflexivity.
  - destruct (host_project_export_path host) as [p|]; [|reflexivity].
    destruct (truthy_str (Some p)); [|reflexivity].
    norm_world.
    destruct (fs1 !! p) as [[|[|f l]]|]; norm_world; reflexivity.
  - destruct ep0 as [p|]; [|reflexivity].
    destruct (truthy_str (Some p)); [|reflexivity].
    norm_world.
    destruct (fs1 !! p) as [[|[|f l]]|]; norm_world; reflexivity.
Qed.

(** The inner loop of [collect_textures]: one item per existing file. *)
Lemma texture_set_run (parent : ItemRef) (texture_set : list (string * string))
    (its : list Item) (tr : list Event) (f : gmap string FSNode) :
  for_fold texture_set tt (fun _ '(texture_id, texture_file) =>
    let! ex := os_path_exists texture_file in
    if ex then
      let filenamefile := snd (os_path.split texture_file) in
      let texture_name := fst (os_path.splitext filenamefile) in
      let! textures_item :=
        create_item parent "substancepainter.texture" "Texture" texture_name in
      set_icon_from_path textures_item (icon host "texture.png");;
      set_property textures_item "path" (PStr texture_file);;
      set_property textures_item "publish_type" (PStr "Texture")
    else ret tt) {| items := its; trace := tr; fs := f |}
  = (Ok tt,
     {| items := its ++ map (texture_item host parent)
                          (filter (fun x => is_Some (f !! x)) (map snd texture_set));
        trace := tr; fs := f |}).
Proof.
  revert its.
  induction texture_set as [|[texture_id texture_file] l IH]; intros its.
  - cbn. rewrite app_nil_r. reflexivity.
  - cbn [for_fold map snd]. rewrite filter_cons.
    cbv [bind] in *. run_engine.
    destruct (decide (is_Some (f !! texture_file))) as [Hex|Hex].
    + rewrite (bool_decide_eq_true_2 _ Hex). run_engine.
      rewrite IH. cbn [map]. rewrite <- app_assoc. reflexivity.
    + rewrite (bool_decide_eq_false_2 _ Hex). apply IH.
Qed.

Lemma export_info_run (parent : ItemRef) (info : MapExportInfo)
    (its : list Item) (tr : list Event) (f : gmap string FSNode) :
  for_fold info tt (fun _ '(texture_set_name, texture_set) =>
    for_fold texture_set tt (fun _ '(texture_id, texture_file) =>
      let! ex := os_path_exists texture_file in
      if ex then
        let filenamefile := snd (os_path.split texture_file) in
        let texture_name := fst (os_path.splitext filenamefile) in
        let! textures_item :=
          create_item parent "substancepainter.texture" "Texture" texture_name in
        set_icon_from_path textures_item (icon host "texture.png");;
        set_property textures_item "path" (PStr texture_file);;
        set_property textures_item "publish_type" (PStr "Texture")
      else ret tt)) {| items := its; trace := tr; fs := f |}
  = (Ok tt,
     {| items := its ++ map (texture_item host parent)
                          (filter (fun x => is_Some (f !! x)) (exported_files info));
        trace := tr; fs := f |}).
Proof.
  revert its.
  induction info as [|[texture_set_name texture_set] l IH]; intros its.
  - cbn. rewrite app_nil_r. reflexivity.
  - cbn [for_fold exported_files flat_map]. unfold bind at 1.
    rewrite texture_set_run, IH.
    rewrite filter_app, map_app, <- app_assoc. reflexivity.
Qed.

(** Per-texture mode, once the export path is resolved. *)
Lemma collect_textures_run
    (settings : gmap string PluginSetting) (parent : ItemRef) (ep0 : option string)
    (w0 : World) :
  fst (get_export_path host settings w0) = Ok ep0 ->
  exists pre, Forall is_query pre /\ forall w,
    let ep := export_path_or_project host ep0 in
    let busy := [EvShowBusy busy_title busy_message; EvExportDocumentMaps ep] in
    collect_textures host settings parent w =
    match host_export host ep (fs w) with
    | (Raise e, fs1) =>
        (Raise e, {| items := items w; trace := trace w ++ pre ++ busy; fs := fs1 |})
    | (Ok info, fs1) =>
        (Ok tt,
         {| items := items w ++ map (texture_item host parent)
                       (filter (fun x => is_Some (fs1 !! x)) (exported_files info));
            trace := trace w ++ pre ++ busy ++ [EvClearBusy]; fs := fs1 |})
    end.
Proof.
  intros Hep.
  destruct (get_export_path_frame settings) as (r & evs & Hrun & Hq).
  assert (r = Ok ep0) as ->.
  { rewrite Hrun in Hep. exact Hep. }
  exists (evs ++ if negb (truthy_str ep0) then [EvGetProjectExportPath] else []).
  split.
  { apply Forall_app. split; [exact Hq|].
    destruct (negb (truthy_str ep0)); repeat constructor. }
  intros w. unfold collect_textures, export_path_or_project.
  unfold bind at 1. rewrite Hrun.
  destruct (negb (truthy_str ep0)).
  - unfold bind at 1, get_project_export_path at 1, bind at 1, log_event at 1.
    cbn [items trace fs]. unfold ret at 1.
    unfold bind at 1, show_busy, log_event at 1. cbn [items trace fs].
    unfold bind at 1, export_document_maps, bind at 1, log_event at 1.
    cbn [items trace fs].
    destruct (host_export host _ (fs w)) as [[info|e] fs1].
    + unfold bind at 1, clear_busy, log_event at 1. cbn [items trace fs].
      rewrite export_info_run. rewrite <- ?app_assoc. reflexivity.
    + rewrite <- ?app_assoc. reflexivity.
  - unfold bind at 1, ret at 1.
    unfold bind at 1, show_busy, log_event at 1. cbn [items trace fs].
    unfold bind at 1, export_document_maps, bind at 1, log_event at 1.
    cbn [items trace fs].
    destruct (host_export host _ (fs w)) as [[info|e] fs1].
    + unfold bind at 1, clear_busy, log_event at 1. cbn [items trace fs].
      rewrite export_info_run. rewrite <- ?app_assoc, ?app_nil_r. reflexivity.
    + rewrite <- ?app_assoc, ?app_nil_r. reflexivity.
Qed.

(** When path resolution itself raises, nothing else happens. *)
Lemma textures_resolution_raises
    (settings : gmap string PluginSetting) (parent : ItemRef) (e : exn) (w : World) :
  fst (get_export_path host settings w) = Raise e ->
  (fst (collect_textures_as_folder host settings parent w) = Raise e /\
   items (snd (collect_textures_as_folder host settings parent w)) = items w) /\
  (fst (collect_textures host settings parent w) = Raise e /\
   items (snd (collect_textures host settings parent w)) = items w).
Proof.
  intros Hep.
  destruct (get_export_path_frame settings) as (r & evs & Hrun & Hq).
  rewrite Hrun in Hep. cbn in Hep. subst r.
  split; [unfold collect_textures_as_folder | unfold collect_textures];
    rewrite (bind_raise _ _ _ _ _ (Hrun w)); split; reflexivity.
Qed.

(** The session item: created under the parent, its two properties set
    exactly when the Work Template setting is present. *)
Lemma painter_session_run
    (settings : gmap string PluginSetting) (parent : ItemRef) :
  exists sess evs,
    (forall w,
       collect_current_substancepainter_session host settings parent w =
       (Ok (length (items w)),
        {| items := items w ++ [sess]; trace := trace w ++ evs; fs := fs w |}))
    /\ item_type sess = "substancepainter.session"
    /\ item_parent sess = parent
    /\ match settings !! "Work Template" with
       | Some s =>
           properties sess !! "work_template" =
             Some (pv_of_template (host_templates host (value s)))
           /\ properties sess !! "publish_type" = Some (PStr SESSION_PUBLISHED_TYPE)
       | None =>
           properties sess !! "work_template" = None
           /\ properties sess !! "publish_type" = None
       end.
Proof.
  unfold collect_current_substancepainter_session.
  destruct (settings !! "Work Template") as [s|];
    do 2 eexists;
    (split; [intros w; run_engine; rewrite <- ?app_assoc; reflexivity|]);
    cbn; repeat split.
Qed.

Lemma truthy_str_nonempty (d : string) : d <> "" -> truthy_str (Some d) = true.
Proof.
  intros H. unfold truthy_str. apply negb_true_iff, String.eqb_neq. exact H.
Qed.

(** C4: with Publish Textures as Folder present and true, an export path
    that resolves to a non-empty string [d], an export that returns
    normally and a directory [d] that then lists at least one entry,
    [process_current_session] returns normally having appended exactly
    two items: the session item and, under it, one
    [substancepainter.textures] item whose [path] is [d] and whose
    [publish_type] is "Texture Folder".  No [substancepainter.texture]
    item is among them. *)
Theorem painter_folder_mode_one_textures_item
    (settings : gmap string PluginSetting) (parent : ItemRef) (w : World)
    (s : PluginSetting) (ep0 : option string) (d : string)
    (info : MapExportInfo) (fs1 : gmap string FSNode) (f : string) (rest : list string) :
  settings !! "Publish Textures as Folder" = Some s ->
  truthy_value (value s) = true ->
  fst (get_export_path host settings w) = Ok ep0 ->
  export_path_or_project host ep0 = Some d ->
  d <> "" ->
  host_export host (Some d) (fs w) = (Ok info, fs1) ->
  fs1 !! d = Some (FDir (f :: rest)) ->
  exists sess tex w',
    process_current_session host settings parent w = (Ok tt, w') /\
    items w' = items w ++ [sess; tex] /\
    item_type sess = "substancepainter.session" /\
    item_type tex = "substancepainter.textures" /\
    item_parent tex = length (items w) /\
    properties tex !! "path" = Some (PStr d) /\
    properties tex !! "publish_type" = Some (PStr "Texture Folder") /\
    Forall (fun it => item_type it <> "substancepainter.texture") [sess; tex].
Proof.
  intros Hs Ht Hep Hd Hne Hx Hl.
  destruct (painter_session_run settings parent)
    as (sess & evs & Hrun & Hty & _ & _).
  destruct (collect_textures_as_folder_run settings (length (items w)) ep0 w Hep)
    as (pre & _ & Hfold).
  exists sess, (textures_folder_item host (length (items w)) d).
  eexists. split.
  - unfold process_current_session.
    rewrite (bind_ok _ _ _ _ _ (Hrun w)). cbn [item_truthy].
    rewrite Hs, Ht, Hfold. cbn [fs items trace].
    rewrite Hd, Hx, (truthy_str_nonempty d Hne), Hl. reflexivity.
  - cbn [items]. rewrite <- app_assoc. cbn [app].
    split; [reflexivity|]. split; [exact Hty|].
    repeat split.
    repeat constructor; [rewrite Hty|]; discriminate.
Qed.

(** C3, as the code has it: once the export has returned, folder mode
    creates no item and returns normally when the export path is unset or
    empty, or when the directory lists no entry; when a non-empty export
    path is not on disk, [os.listdir] raises and the [OSError] reaches the
    caller, still with no item created. *)
Theorem painter_folder_mode_nothing_to_publish
    (settings : gmap string PluginSetting) (parent : ItemRef) (w : World)
    (ep0 : option string) (info : MapExportInfo) (fs1 : gmap string FSNode) :
  fst (get_export_path host settings w) = Ok ep0 ->
  host_export host (export_path_or_project host ep0) (fs w) = (Ok info, fs1) ->
  let ep := export_path_or_project host ep0 in
  let r := collect_textures_as_folder host settings parent w in
  (truthy_str ep = false -> fst r = Ok tt /\ items (snd r) = items w) /\
  (forall d, ep = Some d -> fs1 !! d = Some (FDir []) ->
             fst r = Ok tt /\ items (snd r) = items w) /\
  (forall d, ep = Some d -> d <> "" -> fs1 !! d = None ->
             fst r = Raise (OSError d) /\ items (snd r) = items w).
Proof.
  intros Hep Hx ep r.
  destruct (collect_textures_as_folder_run settings parent ep0 w Hep)
    as (pre & _ & Hfold).
  subst r. rewrite Hfold. cbn zeta. fold ep. fold ep in Hx. rewrite Hx.
  split; [|split].
  - intros Hf. rewrite Hf. destruct ep; split; reflexivity.
  - intros d -> Hl. rewrite Hl. destruct (truthy_str (Some d)); split; reflexivity.
  - intros d -> Hne Hl. rewrite Hl, (truthy_str_nonempty d Hne). split; reflexivity.
Qed.

(** C6: in per-texture mode, once the export has returned [info], the
    call returns normally and the items it appended correspond one to one,
    in order, to the exported files that exist on disk: each is a
    [substancepainter.texture] item under the parent, named after the
    file's base name without extension, with [path] the file and
    [publish_type] "Texture".  Files that do not exist yield nothing. *)
Theorem painter_collect_textures_items
    (settings : gmap string PluginSetting) (parent : ItemRef) (w : World)
    (ep0 : option string) (info : MapExportInfo) (fs1 : gmap string FSNode) :
  fst (get_export_path host settings w) = Ok ep0 ->
  host_export host (export_path_or_project host ep0) (fs w) = (Ok info, fs1) ->
  exists new w',
    collect_textures host settings parent w = (Ok tt, w') /\
    items w' = items w ++ new /\
    Forall2
      (fun file it =>
         item_type it = "substancepainter.texture" /\
         item_name it = fst (os_path.splitext (snd (os_path.split file))) /\
         item_parent it = parent /\
         properties it !! "path" = Some (PStr file) /\
         properties it !! "publish_type" = Some (PStr "Texture"))
      (filter (fun file => is_Some (fs1 !! file)) (exported_files info))
      new.
Proof.
  intros Hep Hx.
  destruct (collect_textures_run settings parent ep0 w Hep) as (pre & _ & Hrun).
  do 2 eexists. split; [|split].
  - rewrite Hrun. cbn zeta. rewrite Hx. reflexivity.
  - reflexivity.
  - apply Forall2_fmap_r, Forall_Forall2_diag, Forall_forall.
    intros file _. repeat split.
Qed.

(** C7: in both texture operations, once the export path is resolved,
    the engine calls made are some queries, then [show_busy], then
    [export_document_maps].  When the export returns, [clear_busy] is the
    very next and last call; when it raises, the exception reaches the
    caller and no [clear_busy] call is made. *)
Theorem painter_busy_bracket
    (settings : gmap string PluginSetting) (parent : ItemRef) (w : World)
    (ep0 : option string) :
  fst (get_export_path host settings w) = Ok ep0 ->
  let ep := export_path_or_project host ep0 in
  let busy := [EvShowBusy busy_title busy_message; EvExportDocumentMaps ep] in
  forall op, op = collect_textures_as_folder \/ op = collect_textures ->
  exists pre, Forall is_query pre /\
    (forall info fs1, host_export host ep (fs w) = (Ok info, fs1) ->
       trace (snd (op host settings parent w)) =
         trace w ++ pre ++ busy ++ [EvClearBusy]) /\
    (forall e fs1, host_export host ep (fs w) = (Raise e, fs1) ->
       fst (op host settings parent w) = Raise e /\
       trace (snd (op host settings parent w)) = trace w ++ pre ++ busy /\
       EvClearBusy ∉ pre ++ busy).
Proof.
  intros Hep ep busy op Hop.
  assert (forall pre, Forall is_query pre -> EvClearBusy ∉ pre ++ busy) as Hno.
  { intros pre Hq Hin. apply elem_of_app in Hin as [Hin|Hin].
    - rewrite Forall_forall in Hq. exact (Hq _ Hin).
    - subst busy. repeat (apply elem_of_cons in Hin as [Hin|Hin]; [discriminate|]).
      inversion Hin. }
  destruct Hop as [-> | ->].
  - destruct (collect_textures_as_folder_run settings parent ep0 w Hep)
      as (pre & Hq & Hrun).
    exists pre. split; [exact Hq|]. split.
    + intros info fs1 Hx. rewrite Hrun. cbn zeta. fold ep. rewrite Hx.
      destruct ep as [p|]; [|reflexivity].
      destruct (truthy_str (Some p)); [|reflexivity].
      destruct (fs1 !! p) as [[|[|? ?]]|]; reflexivity.
    + intros e fs1 Hx. rewrite Hrun. cbn zeta. fold ep. rewrite Hx.
      repeat split. apply Hno, Hq.
  - destruct (collect_textures_run settings parent ep0 w Hep)
      as (pre & Hq & Hrun).
    exists pre. split; [exact Hq|]. split.
    + intros info fs1 Hx. rewrite Hrun. cbn zeta. fold ep. rewrite Hx. reflexivity.
    + intros e fs1 Hx. rewrite Hrun. cbn zeta. fold ep. rewrite Hx.
      repeat split. apply Hno, Hq.
Qed.

(** However the two texture operations end, they only append items, and
    none of those has a [work_template] key. *)
Lemma painter_textures_append
    (settings : gmap string PluginSetting) (parent : ItemRef) (w : World) :
  forall op, op = collect_textures_as_folder \/ op = collect_textures ->
  exists new,
    items (snd (op host settings parent w)) = items w ++ new /\
    Forall (fun it => properties it !! "work_template" = None) new.
Proof.
  intros op Hop.
  destruct (fst (get_export_path host settings w)) as [ep0|e] eqn:Hep.
  - destruct Hop as [-> | ->].
    + destruct (collect_textures_as_folder_run settings parent ep0 w Hep)
        as (pre & _ & Hrun).
      rewrite Hrun. cbn zeta.
      destruct (host_export host _ (fs w)) as [[info|e] fs1];
        [|exists []; rewrite app_nil_r; split; [reflexivity|constructor]].
      destruct (export_path_or_project host ep0) as [p|];
        [|exists []; rewrite app_nil_r; split; [reflexivity|constructor]].
      destruct (truthy_str (Some p));
        [|exists []; rewrite app_nil_r; split; [reflexivity|constructor]].
      destruct (fs1 !! p) as [[|[|f l]]|];
        try (exists []; rewrite app_nil_r; split; [reflexivity|constructor]).
      eexists. split; [reflexivity|]. repeat constructor.
    + destruct (collect_textures_run settings parent ep0 w Hep)
        as (pre & _ & Hrun).
      rewrite Hrun. cbn zeta.
      destruct (host_export host _ (fs w)) as [[info|e] fs1];
        [|exists []; rewrite app_nil_r; split; [reflexivity|constructor]].
      eexists. split; [reflexivity|].
      apply Forall_fmap, Forall_forall. intros file _. reflexivity.
  - destruct (textures_resolution_raises settings parent e w Hep)
      as [[_ Hf] [_ Ht]].
    exists []. rewrite app_nil_r.
    destruct Hop as [-> | ->]; (split; [assumption|constructor]).
Qed.

(** What [process_current_session] adds, however it ends: the session
    item first, then items without a [work_template] key. *)
Lemma painter_process_created
    (settings : gmap string PluginSetting) (parent : ItemRef) (w : World) :
  exists sess others,
    created_items (process_current_session host settings parent) w = sess :: others
    /\ item_type sess = "substancepainter.session"
    /\ match settings !! "Work Template" with
       | Some s =>
           properties sess !! "work_template" =
             Some (pv_of_template (host_templates host (value s)))
       | None => properties sess !! "work_template" = None
       end
    /\ Forall (fun it => properties it !! "work_template" = None) others.
Proof.
  destruct (painter_session_run settings parent)
    as (sess & evs & Hrun & Hty & _ & Hprops).
  set (ws := {| items := items w ++ [sess]; trace := trace w ++ evs; fs := fs w |}).
  assert (exists op, (op = collect_textures_as_folder \/ op = collect_textures) /\
            process_current_session host settings parent w =
            op host settings (length (items w)) ws) as (op & Hop & Heq).
  { unfold process_current_session.
    rewrite (bind_ok _ _ _ _ _ (Hrun w)). cbn [item_truthy]. fold ws.
    destruct (settings !! "Publish Textures as Folder") as [s|];
      [destruct (truthy_value (value s))|].
    - exists collect_textures_as_folder. split; [left|]; reflexivity.
    - exists collect_textures. split; [right|]; reflexivity.
    - exists collect_textures. split; [right|]; reflexivity. }
  destruct (painter_textures_append settings (length (items w)) ws op Hop)
    as (new & Hitems & Hnew).
  exists sess, new. split; [|split; [exact Hty|split; [|exact Hnew]]].
  - apply created_items_app. rewrite Heq, Hitems. subst ws. cbn [items].
    rewrite <- app_assoc. reflexivity.
  - destruct (settings !! "Work Template"); tauto.
Qed.

End PainterFacts.

(** ** Substance Designer *)

Section DesignerFacts.
Import SubstanceDesignerSessionCollector.
Variable host : Host.

Lemma seq_snoc_range (n a b : nat) :
  seq n a ++ seq (n + a) b = seq n (a + b).
Proof. symmetry. apply seq_app. Qed.

(** One step of item code at a time, the store kept in the form
    [push_item x w] so that terms stay small. *)
Lemma bind_assoc {A B C} (m : M A) (f : A -> M B) (g : B -> M C) (w : World) :
  bind (bind m f) g w = bind m (fun x => bind (f x) g) w.
Proof. unfold bind. destruct (m w) as [[a|e] w']; reflexivity. Qed.

Lemma bind_ret {A B} (a : A) (k : A -> M B) (w : World) :
  bind (ret a) k w = k a w.
Proof. reflexivity. Qed.

Lemma bind_create {B} (parent : ItemRef) (ty disp name : string)
    (k : ItemRef -> M B) (w : World) :
  bind (create_item parent ty disp name) k w =
  k (length (items w))
    (push_item {| item_type := ty; type_display := disp; item_name := name;
                  item_parent := parent; item_icon := None; properties := ∅ |} w).
Proof. reflexivity. Qed.

Lemma bind_set_icon {B} (p : string) (x : Item) (k : unit -> M B) (w : World) :
  bind (set_icon_from_path (length (items w)) p) k (push_item x w) =
  k tt (push_item (with_icon p x) w).
Proof.
  unfold bind, set_icon_from_path, set_items, push_item. cbn [items trace fs].
  rewrite alter_last. reflexivity.
Qed.

Lemma bind_set_property {B} (key : string) (v : PyVal) (x : Item)
    (k : unit -> M B) (w : World) :
  bind (set_property (length (items w)) key v) k (push_item x w) =
  k tt (push_item (with_property key v x) w).
Proof.
  unfold bind, set_property, set_items, push_item. cbn [items trace fs].
  rewrite alter_last. reflexivity.
Qed.

Ltac step_items :=
  repeat first
    [ rewrite bind_assoc
    | rewrite bind_ret
    | rewrite bind_create
    | rewrite bind_set_icon
    | rewrite bind_set_property
    | progress cbv beta ].

Ltac done_items :=
  unfold ret, push_item; cbn [items trace fs];
  rewrite ?length_app; cbn [length]; rewrite ?Nat.add_1_r;
  rewrite <- ?app_assoc; cbn [app seq length]; rewrite ?app_nil_r;
  try reflexivity.

Lemma collect_resource_run (pck : SDPackage) (pck_item : ItemRef)
    (wt : option Template) (ids : list ItemRef) (hm hc : bool)
    (r : SDResource) (w : World) :
  let new := resource_items host pck pck_item wt r in
  collect_resource host pck pck_item wt (ids, hm, hc) r w =
  (Ok (ids ++ seq (length (items w)) (length new),
       hm || is_SDMDLGraph r, hc || is_SDSBSCompGraph r),
   {| items := items w ++ new; trace := trace w; fs := fs w |}).
Proof.
  unfold collect_resource, resource_items.
  destruct (is_SDSBSCompGraph r), (is_SDMDLGraph r); step_items;
    rewrite ?orb_true_r, ?orb_false_r; done_items.
  destruct w; reflexivity.
Qed.

(** The walk over the resources of one package. *)
Lemma resources_run (pck : SDPackage) (pck_item : ItemRef)
    (wt : option Template) (rs : list SDResource) :
  forall (ids : list ItemRef) (hm hc : bool) (w : World),
  let new := flat_map (resource_items host pck pck_item wt) rs in
  for_fold rs (ids, hm, hc) (collect_resource host pck pck_item wt) w =
  (Ok (ids ++ seq (length (items w)) (length new),
       hm || existsb is_SDMDLGraph rs, hc || existsb is_SDSBSCompGraph rs),
   {| items := items w ++ new; trace := trace w; fs := fs w |}).
Proof.
  induction rs as [|r rs IH]; intros ids hm hc w.
  - cbn. rewrite !app_nil_r, !orb_false_r. destruct w; reflexivity.
  - cbn [for_fold flat_map existsb].
    rewrite (bind_ok _ _ _ _ _ (collect_resource_run pck pck_item wt ids hm hc r w)).
    rewrite IH. cbn [items trace fs].
    rewrite !length_app, <- !app_assoc, seq_snoc_range, <- !orb_assoc.
    reflexivity.
Qed.

Lemma collect_package_run (parent : ItemRef) (wt : option Template)
    (ids : list ItemRef) (pck : SDPackage) (w : World) :
  let new := package_items host parent wt (length (items w)) pck in
  collect_package host parent wt ids pck w =
  (Ok (ids ++ seq (length (items w)) (length new)),
   {| items := items w ++ new; trace := trace w; fs := fs w |}).
Proof.
  unfold collect_package, package_items. step_items.
  erewrite bind_ok by apply resources_run.
  cbn [orb].
  destruct (existsb is_SDMDLGraph (getChildrenResources pck)),
    (existsb is_SDSBSCompGraph (getChildrenResources pck));
    step_items; unfold ret, push_item; cbn [items trace fs];
    rewrite ?length_app, ?seq_app; cbn [length seq];
    rewrite <- ?app_assoc; cbn [app]; rewrite ?app_nil_r, ?Nat.add_0_r;
    reflexivity.
Qed.

Lemma packages_run (parent : ItemRef) (wt : option Template)
    (pcks : list SDPackage) :
  forall (ids : list ItemRef) (w : World),
  let new := session_items host parent wt (length (items w)) pcks in
  for_fold pcks ids (collect_package host parent wt) w =
  (Ok (ids ++ seq (length (items w)) (length new)),
   {| items := items w ++ new; trace := trace w; fs := fs w |}).
Proof.
  induction pcks as [|pck pcks IH]; intros ids w.
  - cbn. rewrite !app_nil_r. destruct w; reflexivity.
  - cbn [for_fold session_items].
    rewrite (bind_ok _ _ _ _ _ (collect_package_run parent wt ids pck w)).
    rewrite IH. cbn [items trace fs].
    rewrite !length_app, <- !app_assoc, seq_snoc_range. reflexivity.
Qed.

(** The work template the collectors store: [None] unless the setting is
    present, then whatever name resolution returns. *)
Lemma designer_session_run (settings : gmap string PluginSetting)
    (parent : ItemRef) (w : World) :
  let wt := match settings !! "Work Template" with
            | Some s => host_templates host (value s)
            | None => None
            end in
  let new := session_items host parent wt (length (items w))
               (host_user_packages host) in
  exists evs,
    collect_current_substancedesigner_session host settings parent w =
    (Ok (seq (length (items w)) (length new)),
     {| items := items w ++ new; trace := trace w ++ evs; fs := fs w |}).
Proof.
  unfold collect_current_substancedesigner_session.
  destruct (settings !! "Work Template") as [s|]; cbn [template_of_setting].
  - exists [EvGetTemplateByName (value s)].
    unfold get_template_by_name. rewrite bind_assoc.
    unfold bind at 1, log_event at 1. rewrite bind_ret.
    rewrite packages_run. reflexivity.
  - exists []. rewrite bind_ret, packages_run, app_nil_r. reflexivity.
Qed.

Lemma count_if_app {A} (p : A -> bool) (l1 l2 : list A) :
  count_if p (l1 ++ l2) = count_if p l1 + count_if p l2.
Proof.
  induction l1 as [|x l1 IH]; cbn [app count_if]; [reflexivity|].
  rewrite IH. lia.
Qed.

Lemma existsb_count_if {A} (p : A -> bool) (l : list A) :
  0 < count_if p l -> existsb p l = true.
Proof.
  induction l as [|x l IH]; cbn [count_if existsb]; [lia|].
  destruct (p x); [reflexivity|]. exact IH.
Qed.

(** Counting references by type is counting the items they denote. *)
Lemma count_has_type_seq (ty : string) (new : list Item) :
  forall (w : World) (its : list Item),
  items w = its ++ new ->
  count_if (has_type w ty) (seq (length its) (length new)) =
  count_if (type_is ty) new.
Proof.
  induction new as [|x new IH]; intros w its Hw; [reflexivity|].
  cbn [length seq count_if].
  assert (has_type w ty (length its) = type_is ty x) as ->.
  { unfold has_type. rewrite Hw, list_lookup_middle by reflexivity. reflexivity. }
  f_equal.
  replace (S (length its)) with (length (its ++ [x]))
    by (rewrite length_app; cbn; lia).
  apply IH. rewrite Hw, <- app_assoc. reflexivity.
Qed.

Lemma count_resource_items (ty : string) (pck : SDPackage) (n : ItemRef)
    (wt : option Template) (rs : list SDResource) :
  count_if (type_is ty) (flat_map (resource_items host pck n wt) rs) =
  (if String.eqb "substancedesigner.graph.textures" ty
   then count_if is_SDSBSCompGraph rs else 0)
  + (if String.eqb "substancedesigner.graph.mdle" ty
     then count_if is_SDMDLGraph rs else 0)
  + (if String.eqb "substancedesigner.graph.preset" ty
     then count_if is_SDMDLGraph rs else 0).
Proof.
  set (b1 := String.eqb "substancedesigner.graph.textures" ty).
  set (b2 := String.eqb "substancedesigner.graph.mdle" ty).
  set (b3 := String.eqb "substancedesigner.graph.preset" ty).
  induction rs as [|r rs IH]; cbn [flat_map count_if].
  - destruct b1, b2, b3; reflexivity.
  - rewrite count_if_app, IH.
    unfold resource_items, type_is, designer_graph_shape.
    destruct (is_SDSBSCompGraph r), (is_SDMDLGraph r);
      cbn [app count_if item_type with_property with_icon];
      fold b1 b2 b3; destruct b1, b2, b3; lia.
Qed.

Lemma length_resource_items (pck : SDPackage) (n : ItemRef)
    (wt : option Template) (rs : list SDResource) :
  length (flat_map (resource_items host pck n wt) rs) =
  count_if is_SDSBSCompGraph rs + 2 * count_if is_SDMDLGraph rs.
Proof.
  induction rs as [|r rs IH]; [reflexivity|].
  cbn [flat_map count_if]. rewrite length_app, IH. unfold resource_items.
  destruct (is_SDSBSCompGraph r), (is_SDMDLGraph r); cbn [app length]; lia.
Qed.

(** C1: with exactly one user package, holding exactly one compositing
    graph and exactly one MDL graph among its resources, the list returned
    by [collect_current_substancedesigner_session] has six elements: one
    item of each of the types package, graph.textures, graph.mdle,
    graph.preset, package.mdl and package.archive. *)
Theorem designer_one_package_six_items
    (settings : gmap string PluginSetting) (parent : ItemRef) (w : World)
    (pck : SDPackage) :
  host_user_packages host = [pck] ->
  count_if is_SDSBSCompGraph (getChildrenResources pck) = 1 ->
  count_if is_SDMDLGraph (getChildrenResources pck) = 1 ->
  exists ids w',
    collect_current_substancedesigner_session host settings parent w = (Ok ids, w') /\
    length ids = 6 /\
    count_if (has_type w' "substancedesigner.package") ids = 1 /\
    count_if (has_type w' "substancedesigner.graph.textures") ids = 1 /\
    count_if (has_type w' "substancedesigner.graph.mdle") ids = 1 /\
    count_if (has_type w' "substancedesigner.graph.preset") ids = 1 /\
    count_if (has_type w' "substancedesigner.package.mdl") ids = 1 /\
    count_if (has_type w' "substancedesigner.package.archive") ids = 1.
Proof.
  intros Hpk Hc Hm.
  destruct (designer_session_run settings parent w) as [evs Hrun].
  rewrite Hpk in Hrun. cbn [session_items] in Hrun. rewrite app_nil_r in Hrun.
  assert (existsb is_SDSBSCompGraph (getChildrenResources pck) = true) as Hec
    by (apply existsb_count_if; lia).
  assert (existsb is_SDMDLGraph (getChildrenResources pck) = true) as Hem
    by (apply existsb_count_if; lia).
  do 2 eexists. split; [exact Hrun|].
  split.
  { rewrite length_seq. unfold package_items. rewrite Hec, Hem.
    rewrite !length_app, length_resource_items, Hc, Hm. reflexivity. }
  repeat split;
    (erewrite count_has_type_seq by reflexivity);
    unfold package_items; rewrite Hec, Hem;
    rewrite !count_if_app, count_resource_items, Hc, Hm; reflexivity.
Qed.

(** Every Designer item carries the [work_template] variable's value. *)
Lemma session_items_work_template (parent : ItemRef) (wt : option Template)
    (pcks : list SDPackage) :
  forall n,
  Forall (fun it => properties it !! "work_template" = Some (pv_of_template wt))
    (session_items host parent wt n pcks).
Proof.
  induction pcks as [|pck pcks IH]; intros n; cbn [session_items].
  - constructor.
  - apply Forall_app. split; [|apply IH].
    unfold package_items. repeat apply Forall_app_2.
    + repeat constructor.
    + apply Forall_flat_map, Forall_forall. intros r _.
      unfold resource_items.
      destruct (is_SDSBSCompGraph r), (is_SDMDLGraph r); repeat constructor.
    + destruct (existsb _ _); repeat constructor.
    + destruct (existsb _ _); repeat constructor.
Qed.

Lemma designer_process_created (settings : gmap string PluginSetting)
    (parent : ItemRef) (w : World) :
  created_items (process_current_session host settings parent) w =
  created_items (collect_current_substancedesigner_session host settings parent) w.
Proof.
  destruct (designer_session_run settings parent w) as [evs Hrun].
  unfold created_items, process_current_session.
  rewrite (bind_ok _ _ _ _ _ Hrun), Hrun.
  destruct (seq _ _); reflexivity.
Qed.

(** [process_current_session] appends the whole returned list as one
    element of [items]. *)
Lemma designer_process_wraps (settings : gmap string PluginSetting)
    (parent : ItemRef) (w w' : World) (ids : list ItemRef) :
  collect_current_substancedesigner_session host settings parent w = (Ok ids, w') ->
  process_current_session host settings parent w =
  (Ok (match ids with [] => [] | _ :: _ => [ids] end), w').
Proof.
  intros Hrun. unfold process_current_session.
  rewrite (bind_ok _ _ _ _ _ Hrun). destruct ids; reflexivity.
Qed.

End DesignerFacts.

(** ** All three collectors *)

Section CollectorFacts.
Variable host : Host.

Lemma pv_of_template_not_path (t : option Template) :
  is_path_string (pv_of_template t) = false.
Proof. destruct t; reflexivity. Qed.

(** C8: whichever of the three [process_current_session] methods runs,
    and however it ends, each item it created that has a [work_template]
    key holds there the object name resolution returned for the Work
    Template setting (the [None] the variable starts with when the setting
    is absent), and never a path string. *)
Theorem work_template_stored_unresolved
    (settings : gmap string PluginSetting) (parent : ItemRef) (w : World) :
  Forall (stored_template_unresolved host settings)
    (created_items
       (SubstancePainterSessionCollector.process_current_session
          host settings parent) w)
  /\
  Forall (stored_template_unresolved host settings)
    (created_items
       (SubstanceDesignerSessionCollector.process_current_session
          host settings parent) w)
  /\
  Forall (stored_template_unresolved host settings)
    (created_items
       (BlenderSessionCollector.process_current_session
          host settings parent) w).
Proof.
  assert (forall it,
            match settings !! "Work Template" with
            | Some s => properties it !! "work_template" =
                          Some (pv_of_template (host_templates host (value s)))
            | None => properties it !! "work_template" = None
            end -> stored_template_unresolved host settings it) as Hsess.
  { intros it H v Hv. destruct (settings !! "Work Template") as [s|].
    - rewrite H in Hv. injection Hv as <-.
      split; [apply pv_of_template_not_path|reflexivity].
    - rewrite H in Hv. discriminate. }
  assert (forall it, properties it !! "work_template" = None ->
                     stored_template_unresolved host settings it) as Hnone.
  { intros it H v Hv. rewrite H in Hv. discriminate. }
  split; [|split].
  - destruct (painter_process_created host settings parent w)
      as (sess & others & -> & _ & Hs & Ho).
    constructor; [apply Hsess, Hs|].
    eapply Forall_impl; [exact Ho|exact Hnone].
  - rewrite designer_process_created.
    destruct (designer_session_run host settings parent w) as [evs Hrun].
    erewrite created_items_app by (rewrite Hrun; reflexivity).
    eapply Forall_impl; [apply session_items_work_template|].
    intros it H v Hv. rewrite H in Hv. injection Hv as <-.
    split; [apply pv_of_template_not_path|].
    destruct (settings !! "Work Template"); reflexivity.
  - destruct (blender_process_created host settings parent w)
      as (sess & geo & -> & Hs & Hg).
    constructor; [apply Hsess, Hs|]. constructor; [|constructor].
    apply Hnone. rewrite Hg. reflexivity.
Qed.

(** C10: without the Work Template setting, the Substance Painter and
    the Blender session items are created with neither a [work_template]
    nor a [publish_type] key; with it, both keys are set.  Every item of
    the Designer collector has a [work_template] key in either case, and
    without the setting its value is [None]. *)
Theorem work_template_key_presence
    (settings : gmap string PluginSetting) (parent : ItemRef) (w : World) :
  (settings !! "Work Template" = None ->
   (exists sess,
      created_items
        (SubstancePainterSessionCollector.collect_current_substancepainter_session
           host settings parent) w = [sess] /\
      properties sess !! "work_template" = None /\
      properties sess !! "publish_type" = None) /\
   (exists sess,
      created_items
        (BlenderSessionCollector.collect_current_blender_session
           host settings parent) w = [sess] /\
      properties sess !! "work_template" = None /\
      properties sess !! "publish_type" = None) /\
   Forall (fun it => properties it !! "work_template" = Some PNone)
     (created_items
        (SubstanceDesignerSessionCollector.collect_current_substancedesigner_session
           host settings parent) w))
  /\
  (forall s, settings !! "Work Template" = Some s ->
   (exists sess,
      created_items
        (SubstancePainterSessionCollector.collect_current_substancepainter_session
           host settings parent) w = [sess] /\
      is_Some (properties sess !! "work_template") /\
      properties sess !! "publish_type" = Some (PStr SESSION_PUBLISHED_TYPE)) /\
   (exists sess,
      created_items
        (BlenderSessionCollector.collect_current_blender_session
           host settings parent) w = [sess] /\
      is_Some (properties sess !! "work_template") /\
      properties sess !! "publish_type" = Some (PStr "Blender Project File")))
  /\
  Forall (fun it => is_Some (properties it !! "work_template"))
    (created_items
       (SubstanceDesignerSessionCollector.collect_current_substancedesigner_session
          host settings parent) w).
Proof.
  destruct (painter_session_run host settings parent)
    as (ps & pevs & Hp & _ & _ & Hpp).
  destruct (blender_session_run host settings parent)
    as (bs & bevs & Hb & _ & Hbp).
  destruct (designer_session_run host settings parent w) as [devs Hd].
  assert (created_items
            (SubstancePainterSessionCollector.collect_current_substancepainter_session
               host settings parent) w = [ps]) as Hpc
    by (apply created_items_app; rewrite Hp; reflexivity).
  assert (created_items
            (BlenderSessionCollector.collect_current_blender_session
               host settings parent) w = [bs]) as Hbc
    by (apply created_items_app; rewrite Hb; reflexivity).
  erewrite (created_items_app
              (SubstanceDesignerSessionCollector.collect_current_substancedesigner_session
                 host settings parent)) by (rewrite Hd; reflexivity).
  split; [|split].
  - intros Hnone. rewrite Hnone in Hpp, Hbp |- *.
    split; [exists ps; tauto|]. split; [exists bs; tauto|].
    apply (session_items_work_template host parent None).
  - intros s Hs. rewrite Hs in Hpp, Hbp.
    destruct Hpp as [Hp1 Hp2], Hbp as [Hb1 Hb2].
    split; [exists ps|exists bs]; rewrite ?Hp1, ?Hb1; eauto.
  - eapply Forall_impl; [apply session_items_work_template|].
    intros it H. rewrite H. eauto.
Qed.

End CollectorFacts.

(** ** Worked sessions *)

Import SubstancePainterSessionCollector.

Example sample_designer_session :
  fst (SubstanceDesignerSessionCollector.collect_current_substancedesigner_session
         sample_host ∅ 0 (sample_world ∅)) = Ok [1; 2; 3; 4; 5; 6].
Proof. vm_compute. reflexivity. Qed.

(** Two exported maps under [/tmp], both on disk, give two items named
    after the files. *)
Example sample_textures_session :
  map item_name
    (created_items (collect_textures sample_host ∅ 0) (sample_world ∅))
  = ["a_diffuse"; "a_normal"].
Proof. vm_compute. reflexivity. Qed.

Lemma designer_one_package_six_items_witness :
  exists ids w',
    SubstanceDesignerSessionCollector.collect_current_substancedesigner_session
      sample_host ∅ 0 (sample_world ∅) = (Ok ids, w') /\
    length ids = 6 /\
    count_if (has_type w' "substancedesigner.package") ids = 1 /\
    count_if (has_type w' "substancedesigner.graph.textures") ids = 1 /\
    count_if (has_type w' "substancedesigner.graph.mdle") ids = 1 /\
    count_if (has_type w' "substancedesigner.graph.preset") ids = 1 /\
    count_if (has_type w' "substancedesigner.package.mdl") ids = 1 /\
    count_if (has_type w' "substancedesigner.package.archive") ids = 1.
Proof.
  apply (designer_one_package_six_items sample_host ∅ 0 (sample_world ∅)
           sample_package); vm_compute; reflexivity.
Defined.

(** C2: on the sample session the Designer collector builds six items
    and [collect_current_substancedesigner_session] returns the flat list
    of them, but [process_current_session] returns a one-element list
    whose only element is that list. *)
Theorem designer_process_returns_nested_list :
  fst (SubstanceDesignerSessionCollector.collect_current_substancedesigner_session
         sample_host ∅ 0 (sample_world ∅)) = Ok [1; 2; 3; 4; 5; 6] /\
  fst (SubstanceDesignerSessionCollector.process_current_session_value
         sample_host ∅ 0 (sample_world ∅))
    = Ok (RList [py_of_items [1; 2; 3; 4; 5; 6]]) /\
  RList [py_of_items [1; 2; 3; 4; 5; 6]] <> py_of_items [1; 2; 3; 4; 5; 6].
Proof.
  split; [vm_compute; reflexivity|].
  split; [vm_compute; reflexivity|].
  unfold py_of_items. cbn [map]. intros H. discriminate H.
Qed.

(** C3, counterexample: the export returns without creating the export
    directory [/exp]; folder mode then ends with [OSError] instead of
    returning quietly. *)
Lemma painter_folder_mode_missing_directory_raises :
  let r := collect_textures_as_folder silent_host ∅ 0 (sample_world ∅) in
  fs (snd r) !! "/exp" = None /\
  fst r = Raise (OSError "/exp") /\
  fst r <> Ok tt.
Proof.
  cbv zeta. split; [vm_compute; reflexivity|].
  split; [vm_compute; reflexivity|].
  vm_compute. intros H. discriminate H.
Qed.

Lemma painter_folder_mode_nothing_to_publish_witness :
  (fst (collect_textures_as_folder silent_host ∅ 0
          (sample_world {[ "/exp" := FDir [] ]})) = Ok tt /\
   items (snd (collect_textures_as_folder silent_host ∅ 0
                 (sample_world {[ "/exp" := FDir [] ]}))) = [sample_root]) /\
  (fst (collect_textures_as_folder silent_host ∅ 0 (sample_world ∅))
     = Raise (OSError "/exp") /\
   items (snd (collect_textures_as_folder silent_host ∅ 0 (sample_world ∅)))
     = [sample_root]).
Proof.
  split.
  - destruct (painter_folder_mode_nothing_to_publish silent_host ∅ 0
                (sample_world {[ "/exp" := FDir [] ]}) None []
                {[ "/exp" := FDir [] ]}) as (_ & Hempty & _);
      [vm_compute; reflexivity | vm_compute; reflexivity |].
    apply (Hempty "/exp"); vm_compute; reflexivity.
  - destruct (painter_folder_mode_nothing_to_publish silent_host ∅ 0
                (sample_world ∅) None [] ∅) as (_ & _ & Hmissing);
      [vm_compute; reflexivity | vm_compute; reflexivity |].
    apply (Hmissing "/exp");
      [vm_compute; reflexivity | discriminate | vm_compute; reflexivity].
Defined.

Lemma painter_folder_mode_one_textures_item_witness :
  exists sess tex w',
    process_current_session sample_host sample_settings 0 (sample_world ∅)
      = (Ok tt, w') /\
    items w' = [sample_root; sess; tex] /\
    item_type sess = "substancepainter.session" /\
    item_type tex = "substancepainter.textures" /\
    item_parent tex = 1 /\
    properties tex !! "path" = Some (PStr "/proj/export/wood") /\
    properties tex !! "publish_type" = Some (PStr "Texture Folder") /\
    Forall (fun it => item_type it <> "substancepainter.texture") [sess; tex].
Proof.
  apply (painter_folder_mode_one_textures_item sample_host sample_settings 0
           (sample_world ∅) {| value := VBool true |}
           (Some "/proj/export/wood") "/proj/export/wood"
           (sample_export_info "/proj/export/wood")
           (snd (host_export sample_host (Some "/proj/export/wood") ∅))
           "a_diffuse.png" ["a_normal.png"]);
    first [discriminate | vm_compute; reflexivity].
Defined.

Lemma get_export_path_spec_witness :
  fst (get_export_path sample_host ∅ (sample_world ∅)) = Ok None /\
  fst (get_export_path sample_host sample_settings (sample_world ∅))
    = Ok (Some "/proj/export/wood").
Proof.
  split.
  - apply (proj1 (get_export_path_spec sample_host ∅ (sample_world ∅))).
    left. vm_compute. reflexivity.
  - apply (proj2 (get_export_path_spec sample_host sample_settings (sample_world ∅))
             {| value := VStr "substancepainter_work" |}
             {| value := VStr "substancepainter_export" |}
             {| template_name := "substancepainter_work" |}
             {| template_name := "substancepainter_export" |});
      vm_compute; reflexivity.
Defined.

Lemma painter_collect_textures_items_witness :
  exists new w',
    collect_textures sample_host ∅ 0 (sample_world ∅) = (Ok tt, w') /\
    items w' = items (sample_world ∅) ++ new /\
    Forall2
      (fun file it =>
         item_type it = "substancepainter.texture" /\
         item_name it = fst (os_path.splitext (snd (os_path.split file))) /\
         item_parent it = 0 /\
         properties it !! "path" = Some (PStr file) /\
         properties it !! "publish_type" = Some (PStr "Texture"))
      (filter (fun file =>
                 is_Some (snd (host_export sample_host (Some "/tmp") ∅) !! file))
         (exported_files (sample_export_info "/tmp")))
      new.
Proof.
  apply (painter_collect_textures_items sample_host ∅ 0 (sample_world ∅) None
           (sample_export_info "/tmp")
           (snd (host_export sample_host (Some "/tmp") ∅)));
    vm_compute; reflexivity.
Defined.

Lemma painter_busy_bracket_witness :
  (exists pre, Forall is_query pre /\
     trace (snd (collect_textures sample_host ∅ 0 (sample_world ∅))) =
       pre ++ [EvShowBusy busy_title busy_message;
               EvExportDocumentMaps (Some "/tmp"); EvClearBusy]) /\
  (exists pre, Forall is_query pre /\
     fst (collect_textures_as_folder failing_host ∅ 0 (sample_world ∅)) =
       Raise (HostError "export failed") /\
     trace (snd (collect_textures_as_folder failing_host ∅ 0 (sample_world ∅))) =
       pre ++ [EvShowBusy busy_title busy_message;
               EvExportDocumentMaps (Some "/tmp")]).
Proof.
  split.
  - destruct (painter_busy_bracket sample_host ∅ 0 (sample_world ∅) None)
      with (op := collect_textures) as (pre & Hq & Hok & _);
      [vm_compute; reflexivity | right; reflexivity |].
    exists pre. split; [exact Hq|].
    eapply Hok. vm_compute. reflexivity.
  - destruct (painter_busy_bracket failing_host ∅ 0 (sample_world ∅) None)
      with (op := collect_textures_as_folder) as (pre & Hq & _ & Hraise);
      [vm_compute; reflexivity | left; reflexivity |].
    exists pre. split; [exact Hq|].
    edestruct Hraise as (Hr & Ht & _); [vm_compute; reflexivity|].
    split; [exact Hr|exact Ht].
Defined.

Lemma work_template_key_presence_witness :
  (exists sess,
     created_items
       (collect_current_substancepainter_session sample_host ∅ 0)
       (sample_world ∅) = [sess] /\
     properties sess !! "work_template" = None /\
     properties sess !! "publish_type" = None) /\
  (exists sess,
     created_items
       (BlenderSessionCollector.collect_current_blender_session sample_host ∅ 0)
       (sample_world ∅) = [sess] /\
     properties sess !! "work_template" = None /\
     properties sess !! "publish_type" = None) /\
  Forall (fun it => properties it !! "work_template" = Some PNone)
    (created_items
       (SubstanceDesignerSessionCollector.collect_current_substancedesigner_session
          sample_host ∅ 0) (sample_world ∅)).
Proof.
  apply (proj1 (work_template_key_presence sample_host ∅ 0 (sample_world ∅))).
  vm_compute. reflexivity.
Defined.

(** * Further properties of the collectors *)

Section PainterMore.
Import SubstancePainterSessionCollector.
Variable host : Host.

(** X1: [collect_current_substancepainter_session] always returns the
    reference of one new item appended under the given parent: a
    [substancepainter.session] item with the session icon, named after the
    file name component of the current project path, or "Current Substance
    Painter Session" when the application reports no path or an empty one.
    The file system is left alone. *)
Theorem painter_session_item_named
    (settings : gmap string PluginSetting) (parent : ItemRef) (w : World) :
  exists sess w',
    collect_current_substancepainter_session host settings parent w =
      (Ok (length (items w)), w') /\
    items w' = items w ++ [sess] /\
    fs w' = fs w /\
    item_type sess = "substancepainter.session" /\
    type_display sess = "Substance Painter Session" /\
    item_parent sess = parent /\
    item_icon sess = Some (icon host "session.png") /\
    (truthy_str (host_current_project_path host) = false ->
     item_name sess = "Current Substance Painter Session") /\
    (forall p, host_current_project_path host = Some p -> p <> "" ->
     item_name sess = host_filename host p).
Proof.
  unfold collect_current_substancepainter_session.
  destruct (settings !! "Work Template") as [s|]; run_engine;
    do 2 eexists; (split; [reflexivity|]); cbn [items fs];
    (split; [reflexivity|]); (split; [reflexivity|]);
    cbn [item_type type_display item_parent item_icon item_name
         with_property with_icon];
    repeat (split; [reflexivity|]).
  all: split.
  all: try (intros Hf; destruct (host_current_project_path host);
            [rewrite Hf|]; reflexivity).
  all: intros p -> Hne; rewrite (truthy_str_nonempty p Hne); reflexivity.
Qed.

(** The session item first, then the selected texture operation under it. *)
Lemma painter_process_dispatch
    (settings : gmap string PluginSetting) (parent : ItemRef) :
  exists sess evs,
    (item_type sess = "substancepainter.session" /\
     item_icon sess = Some (icon host "session.png")) /\
    Forall is_query evs /\
    forall w,
      process_current_session host settings parent w =
      (if folder_mode settings then collect_textures_as_folder
       else collect_textures)
        host settings (length (items w))
        {| items := items w ++ [sess]; trace := trace w ++ evs; fs := fs w |}.
Proof.
  unfold collect_current_substancepainter_session, folder_mode.
  assert (exists sess evs,
            (item_type sess = "substancepainter.session" /\
             item_icon sess = Some (icon host "session.png")) /\
            Forall is_query evs /\
            forall w,
              collect_current_substancepainter_session host settings parent w =
              (Ok (length (items w)),
               {| items := items w ++ [sess]; trace := trace w ++ evs;
                  fs := fs w |})) as (sess & evs & [Hty Hic] & Hq & Hrun).
  { unfold collect_current_substancepainter_session.
    destruct (settings !! "Work Template") as [s|];
      do 2 eexists;
      (split; [|split; [|intros w; run_engine; rewrite <- ?app_assoc;
                         reflexivity]]);
      [split; reflexivity | repeat constructor
      | split; reflexivity | repeat constructor]. }
  exists sess, evs. split; [split; assumption|]. split; [exact Hq|].
  intros w. unfold process_current_session.
  rewrite (bind_ok _ _ _ _ _ (Hrun w)). cbn [item_truthy].
  destruct (settings !! "Publish Textures as Folder") as [s|];
    [destruct (truthy_value (value s))|]; reflexivity.
Qed.

(** What the two texture operations append, however they end. *)
Lemma painter_ops_shape
    (settings : gmap string PluginSetting) (parent : ItemRef) (w : World) :
  (exists new,
     items (snd (collect_textures_as_folder host settings parent w)) =
       items w ++ new /\
     (new = [] \/ exists p, new = [textures_folder_item host parent p])) /\
  (exists files,
     items (snd (collect_textures host settings parent w)) =
       items w ++ map (texture_item host parent) files).
Proof.
  destruct (fst (get_export_path host settings w)) as [ep0|e] eqn:Hep.
  - split.
    + destruct (collect_textures_as_folder_run host settings parent ep0 w Hep)
        as (pre & _ & Hrun).
      rewrite Hrun. cbn zeta.
      destruct (host_export host _ (fs w)) as [[info|e] fs1];
        [|exists []; rewrite app_nil_r; split; [reflexivity|left; reflexivity]].
      destruct (export_path_or_project host ep0) as [p|];
        [|exists []; rewrite app_nil_r; split; [reflexivity|left; reflexivity]].
      destruct (truthy_str (Some p));
        [|exists []; rewrite app_nil_r; split; [reflexivity|left; reflexivity]].
      destruct (fs1 !! p) as [[|[|f l]]|];
        try (exists []; rewrite app_nil_r; split; [reflexivity|left; reflexivity]).
      eexists. split; [reflexivity|]. right. eexists. reflexivity.
    + destruct (collect_textures_run host settings parent ep0 w Hep)
        as (pre & _ & Hrun).
      rewrite Hrun. cbn zeta.
      destruct (host_export host _ (fs w)) as [[info|e] fs1].
      * eexists. reflexivity.
      * exists []. rewrite app_nil_r. reflexivity.
  - destruct (textures_resolution_raises host settings parent e w Hep)
      as [[_ Hf] [_ Ht]].
    split.
    + exists []. rewrite app_nil_r. split; [exact Hf|left; reflexivity].
    + exists []. rewrite app_nil_r. exact Ht.
Qed.

(** X3: however [process_current_session] of the Painter collector ends,
    what it created is the session item followed by items that all hang
    under it.  Folder mode is taken only when the Publish Textures as
    Folder setting is present and truthy; it adds at most one item, of
    type [substancepainter.textures].  When the setting is missing or
    falsy, every further item is a [substancepainter.texture]. *)
Theorem painter_mode_selection
    (settings : gmap string PluginSetting) (parent : ItemRef) (w : World) :
  exists sess others,
    created_items (process_current_session host settings parent) w
      = sess :: others /\
    item_type sess = "substancepainter.session" /\
    Forall (fun it => item_parent it = length (items w)) others /\
    (folder_mode settings = true ->
     length others <= 1 /\
     Forall (fun it => item_type it = "substancepainter.textures") others) /\
    (folder_mode settings = false ->
     Forall (fun it => item_type it = "substancepainter.texture") others).
Proof.
  destruct (painter_process_dispatch settings parent)
    as (sess & evs & [Hty Hic] & _ & Hrun).
  set (ws := {| items := items w ++ [sess]; trace := trace w ++ evs; fs := fs w |}).
  destruct (painter_ops_shape settings (length (items w)) ws)
    as [(new & Hf & Hnew) (files & Ht)].
  exists sess.
  destruct (folder_mode settings) eqn:Hmode.
  - exists new. split; [|split; [exact Hty|]].
    { apply created_items_app. rewrite Hrun. fold ws. rewrite Hf.
      subst ws. cbn [items]. rewrite <- app_assoc. reflexivity. }
    destruct Hnew as [-> | [p ->]].
    + repeat split; try constructor; try discriminate. cbn. lia.
    + repeat split; try discriminate; repeat constructor.
  - exists (map (texture_item host (length (items w))) files).
    split; [|split; [exact Hty|]].
    { apply created_items_app. rewrite Hrun. fold ws. rewrite Ht.
      subst ws. cbn [items]. rewrite <- app_assoc. reflexivity. }
    split; [|split; [discriminate|intros _]];
      apply Forall_fmap, Forall_forall; intros file _; reflexivity.
Qed.

Lemma new_events_app {A} (m : M A) (w : World) (evs : list Event) :
  trace (snd (m w)) = trace w ++ evs -> new_events m w = evs.
Proof.
  intros H. unfold new_events. rewrite H, drop_app_length. reflexivity.
Qed.

(** X4: when [export_document_maps] raises, [process_current_session] of
    the Painter collector ends with that exception in either mode; the
    session item it had already created stays in the tree and no texture
    item is added. *)
Theorem painter_export_failure_keeps_session
    (settings : gmap string PluginSetting) (parent : ItemRef) (w : World)
    (ep0 : option string) (e : exn) (fs1 : gmap string FSNode) :
  fst (get_export_path host settings w) = Ok ep0 ->
  host_export host (export_path_or_project host ep0) (fs w) = (Raise e, fs1) ->
  let r := process_current_session host settings parent w in
  fst r = Raise e /\
  fs (snd r) = fs1 /\
  exists sess,
    created_items (process_current_session host settings parent) w = [sess] /\
    item_type sess = "substancepainter.session".
Proof.
  intros Hep Hx r.
  destruct (painter_process_dispatch settings parent)
    as (sess & evs & [Hty Hic] & _ & Hrun).
  destruct (collect_textures_as_folder_run host settings (length (items w)) ep0 w Hep)
    as (pre1 & _ & Hfold).
  destruct (collect_textures_run host settings (length (items w)) ep0 w Hep)
    as (pre2 & _ & Htex).
  assert (fst r = Raise e /\ fs (snd r) = fs1 /\
          items (snd r) = items w ++ [sess]) as (H1 & H2 & H3).
  { subst r. rewrite Hrun.
    destruct (folder_mode settings); [rewrite Hfold|rewrite Htex];
      cbn [fs items trace]; rewrite Hx; repeat split. }
  split; [exact H1|]. split; [exact H2|].
  exists sess. split; [|exact Hty].
  apply created_items_app. exact H3.
Qed.

(** X5: when resolving the export path raises (the work template does
    not match the project path, or fields are missing), the exception
    leaves [process_current_session] before any busy indicator is shown or
    any export is started: the engine calls made are all queries, the file
    system is untouched, and only the session item has been created. *)
Theorem painter_resolution_failure_before_export
    (settings : gmap string PluginSetting) (parent : ItemRef) (w : World)
    (e : exn) :
  fst (get_export_path host settings w) = Raise e ->
  let r := process_current_session host settings parent w in
  fst r = Raise e /\
  fs (snd r) = fs w /\
  Forall is_query (new_events (process_current_session host settings parent) w) /\
  exists sess,
    created_items (process_current_session host settings parent) w = [sess] /\
    item_type sess = "substancepainter.session".
Proof.
  intros Hep r.
  destruct (painter_process_dispatch settings parent)
    as (sess & evs & [Hty Hic] & Hq & Hrun).
  destruct (get_export_path_frame host settings) as (res & evs' & Hgep & Hq').
  rewrite Hgep in Hep. cbn in Hep. subst res.
  assert (r = (Raise e,
               {| items := items w ++ [sess];
                  trace := trace w ++ evs ++ evs'; fs := fs w |})) as Hr.
  { subst r. rewrite Hrun.
    destruct (folder_mode settings);
      [unfold collect_textures_as_folder|unfold collect_textures];
      rewrite (bind_raise _ _ _ _ _ (Hgep _)); cbn [items trace fs];
      rewrite <- app_assoc; reflexivity. }
  split; [rewrite Hr; reflexivity|]. split; [rewrite Hr; reflexivity|].
  split.
  - erewrite new_events_app by (fold r; rewrite Hr; reflexivity).
    apply Forall_app. split; assumption.
  - exists sess. split; [|exact Hty].
    apply created_items_app. fold r. rewrite Hr. reflexivity.
Qed.

(** X6: [get_export_path] is read-only: it creates no item, leaves the
    file system alone, makes only query calls to the engine, and its
    result does not depend on the item store or the trace. *)
Theorem get_export_path_read_only
    (settings : gmap string PluginSetting) (w : World) :
  let r := get_export_path host settings w in
  items (snd r) = items w /\
  fs (snd r) = fs w /\
  Forall is_query (new_events (get_export_path host settings) w) /\
  forall w2, fst (get_export_path host settings w2) = fst r.
Proof.
  destruct (get_export_path_frame host settings) as (res & evs & Hgep & Hq).
  cbn zeta. split; [rewrite Hgep; reflexivity|].
  split; [rewrite Hgep; reflexivity|]. split.
  - erewrite new_events_app by (rewrite Hgep; reflexivity). exact Hq.
  - intros w2. rewrite !Hgep. reflexivity.
Qed.

(** X7: when a present Work Template or Work Export Template setting
    names no template ([get_template_by_name] returns [None], as for a
    setting left at its [None] default), [get_export_path] returns [None]
    and never asks for the current project path. *)
Theorem get_export_path_unresolved_template
    (settings : gmap string PluginSetting) (w : World)
    (k : string) (s : PluginSetting) :
  k = "Work Template" \/ k = "Work Export Template" ->
  settings !! k = Some s ->
  host_templates host (value s) = None ->
  fst (get_export_path host settings w) = Ok None /\
  EvGetCurrentProjectPath ∉ new_events (get_export_path host settings) w.
Proof.
  intros Hk Hs Hnone. unfold new_events, get_export_path.
  destruct Hk as [-> | ->]; rewrite Hs.
  - destruct (settings !! "Work Export Template") as [es|]; run_engine;
      rewrite ?Hnone; [destruct (host_templates host (value es))|];
      cbn [fst snd trace]; rewrite <- ?app_assoc, drop_app_length;
      (split; [reflexivity|]);
      intros Hin;
      repeat (apply elem_of_cons in Hin as [Hin|Hin]; [discriminate|]);
      inversion Hin.
  - destruct (settings !! "Work Template") as [ws|]; run_engine;
      rewrite ?Hnone; cbn [fst snd trace];
      rewrite <- ?app_assoc, drop_app_length;
      (split; [reflexivity|]);
      intros Hin;
      repeat (apply elem_of_cons in Hin as [Hin|Hin]; [discriminate|]);
      inversion Hin.
Qed.

Lemma get_export_path_unset (settings : gmap string PluginSetting) (w : World) :
  settings !! "Work Template" = None \/
  settings !! "Work Export Template" = None ->
  fst (get_export_path host settings w) = Ok None.
Proof.
  intros H. unfold get_export_path.
  destruct (settings !! "Work Template") as [ws|] eqn:Hw;
    destruct (settings !! "Work Export Template") as [es|] eqn:He;
    run_engine;
    try (destruct H; discriminate);
    repeat match goal with
      | |- context [match ?x with _ => _ end] => destruct x
      end; reflexivity.
Qed.

(** X8: without both templates configured, folder mode publishes the
    application's own export directory: the [substancepainter.textures]
    item created by [process_current_session] has that directory as its
    [path]. *)
Theorem painter_folder_falls_back_to_project_path
    (settings : gmap string PluginSetting) (parent : ItemRef) (w : World)
    (d : string) (info : MapExportInfo) (fs1 : gmap string FSNode)
    (f : string) (rest : list string) :
  settings !! "Work Template" = None \/
  settings !! "Work Export Template" = None ->
  folder_mode settings = true ->
  host_project_export_path host = Some d ->
  d <> "" ->
  host_export host (Some d) (fs w) = (Ok info, fs1) ->
  fs1 !! d = Some (FDir (f :: rest)) ->
  exists sess tex,
    created_items (process_current_session host settings parent) w = [sess; tex] /\
    item_type tex = "substancepainter.textures" /\
    properties tex !! "path" = Some (PStr d).
Proof.
  intros Hunset Hmode Hd Hne Hx Hl.
  destruct (painter_process_dispatch settings parent)
    as (sess & evs & [Hty Hic] & _ & Hrun).
  pose proof (get_export_path_unset settings w Hunset) as Hep.
  destruct (collect_textures_as_folder_run host settings (length (items w)) None w Hep)
    as (pre & _ & Hfold).
  exists sess, (textures_folder_item host (length (items w)) d).
  split; [|split; reflexivity].
  apply created_items_app. rewrite Hrun, Hmode, Hfold. cbn [fs items trace].
  unfold export_path_or_project. cbn [truthy_str negb].
  rewrite Hd, Hx, (truthy_str_nonempty d Hne), Hl. cbn [snd items].
  rewrite <- app_assoc. reflexivity.
Qed.

(** Everything [process_current_session] leaves in the store. *)
Lemma painter_process_shape
    (settings : gmap string PluginSetting) (parent : ItemRef) (w : World) :
  exists sess others,
    items (snd (process_current_session host settings parent w)) =
      items w ++ sess :: others /\
    has_icon_of_type host sess /\
    Forall (has_icon_of_type host) others.
Proof.
  destruct (painter_process_dispatch settings parent)
    as (sess & evs & [Hty Hic] & _ & Hrun).
  set (ws := {| items := items w ++ [sess]; trace := trace w ++ evs; fs := fs w |}).
  destruct (painter_ops_shape settings (length (items w)) ws)
    as [(new & Hf & Hnew) (files & Ht)].
  exists sess.
  assert (has_icon_of_type host sess) as Hs.
  { exists "session.png". rewrite Hty. split; [reflexivity|exact Hic]. }
  destruct (folder_mode settings) eqn:Hmode.
  - exists new. split; [|split; [exact Hs|]].
    + rewrite Hrun. fold ws. rewrite Hf. subst ws. cbn [items].
      rewrite <- app_assoc. reflexivity.
    + destruct Hnew as [-> | [p ->]]; repeat constructor.
      exists "texture.png". split; reflexivity.
  - exists (map (texture_item host (length (items w))) files).
    split; [|split; [exact Hs|]].
    + rewrite Hrun. fold ws. rewrite Ht. subst ws. cbn [items].
      rewrite <- app_assoc. reflexivity.
    + apply Forall_fmap, Forall_forall. intros file _.
      exists "texture.png". split; reflexivity.
Qed.

End PainterMore.

Ltac eval_eqb :=
  repeat match goal with
    | |- context [String.eqb ?a ?b] =>
        let v := eval vm_compute in (String.eqb a b) in
        change (String.eqb a b) with v
    end;
  cbv iota.

Section DesignerMore.
Import SubstanceDesignerSessionCollector.
Variable host : Host.

(** Where each appended Designer item comes from. *)
Lemma session_items_cases (parent : ItemRef) (wt : option Template)
    (pcks : list SDPackage) :
  forall (n : nat) (it : Item),
  it ∈ session_items host parent wt n pcks ->
  exists pck m,
    pck ∈ pcks /\
    let pck_id := get_file_path_components_filename host (getFilePath pck) in
    let rs := getChildrenResources pck in
    (it = designer_package_shape host "substancedesigner.package"
            "Substance Designer Package" pck_id "substancedesigner.png"
            "Substance Designer File" pck parent wt)
    \/ (existsb is_SDMDLGraph rs = true /\
        it = designer_package_shape host "substancedesigner.package.mdl"
               "Package as MDL Module" (pck_id +:+ " MDL Module")
               "substancedesigner_graph_mdl.png" "MDL File" pck m wt)
    \/ (existsb is_SDSBSCompGraph rs = true /\
        it = designer_package_shape host "substancedesigner.package.archive"
               "Substance Designer Package Archive" (pck_id +:+ " Archive")
               "substancedesignerarchive.png" "Substance Designer Archive"
               pck m wt)
    \/ (exists r, r ∈ rs /\
         ((is_SDSBSCompGraph r = true /\
           it = designer_graph_shape host "substancedesigner.graph.textures"
                  "Textures" " Textures" "texture.png" "Texture Folder"
                  pck m wt r)
          \/ (is_SDMDLGraph r = true /\
              (it = designer_graph_shape host "substancedesigner.graph.mdle"
                      "Graph as MDLE" " MDLE" "substancedesigner_graph_mdle.png"
                      "MDLE File" pck m wt r
               \/ it = designer_graph_shape host "substancedesigner.graph.preset"
                         "Graph as preset" " Preset(mdl)"
                         "substancedesigner_graph_preset.png" "MDL File"
                         pck m wt r)))).
Proof.
  induction pcks as [|pck pcks IH]; intros n it Hin; cbn [session_items] in Hin.
  - inversion Hin.
  - apply elem_of_app in Hin as [Hin|Hin].
    + exists pck, n. split; [left|].
      unfold package_items in Hin. cbv zeta.
      apply elem_of_app in Hin as [Hin|Hin];
        [apply list_elem_of_singleton in Hin; left; exact Hin|].
      apply elem_of_app in Hin as [Hin|Hin].
      * right. right. right.
        apply list_elem_of_In, in_flat_map in Hin as (r & Hr & Hin).
        exists r. split; [apply list_elem_of_In; exact Hr|].
        apply list_elem_of_In in Hin. unfold resource_items in Hin.
        apply elem_of_app in Hin as [Hin|Hin].
        -- left. destruct (is_SDSBSCompGraph r); [|inversion Hin].
           apply list_elem_of_singleton in Hin. split; [reflexivity|exact Hin].
        -- right. destruct (is_SDMDLGraph r); [|inversion Hin].
           split; [reflexivity|].
           apply elem_of_cons in Hin as [Hin|Hin]; [left; exact Hin|].
           apply list_elem_of_singleton in Hin. right. exact Hin.
      * apply elem_of_app in Hin as [Hin|Hin].
        -- right. left. destruct (existsb is_SDMDLGraph _); [|inversion Hin].
           apply list_elem_of_singleton in Hin. split; [reflexivity|exact Hin].
        -- right. right. left.
           destruct (existsb is_SDSBSCompGraph _); [|inversion Hin].
           apply list_elem_of_singleton in Hin. split; [reflexivity|exact Hin].
    + destruct (IH _ _ Hin) as (pck' & m & Hp & H).
      exists pck', m. split; [right; exact Hp|exact H].
Qed.

Lemma designer_created (settings : gmap string PluginSetting)
    (parent : ItemRef) (w : World) :
  created_items
    (collect_current_substancedesigner_session host settings parent) w =
  session_items host parent (resolved_work_template host settings)
    (length (items w)) (host_user_packages host).
Proof.
  destruct (designer_session_run host settings parent w) as [evs Hrun].
  apply created_items_app. rewrite Hrun. reflexivity.
Qed.

Lemma count_session_items (ty : string) (parent : ItemRef)
    (wt : option Template) (pcks : list SDPackage) :
  forall n,
  count_if (type_is ty) (session_items host parent wt n pcks) =
  (if String.eqb "substancedesigner.package" ty then length pcks else 0)
  + (if String.eqb "substancedesigner.graph.textures" ty
     then count_if is_SDSBSCompGraph (flat_map getChildrenResources pcks) else 0)
  + (if String.eqb "substancedesigner.graph.mdle" ty
     then count_if is_SDMDLGraph (flat_map getChildrenResources pcks) else 0)
  + (if String.eqb "substancedesigner.graph.preset" ty
     then count_if is_SDMDLGraph (flat_map getChildrenResources pcks) else 0)
  + (if String.eqb "substancedesigner.package.mdl" ty
     then count_if has_mdl_graph pcks else 0)
  + (if String.eqb "substancedesigner.package.archive" ty
     then count_if has_comp_graph pcks else 0).
Proof.
  set (b1 := String.eqb "substancedesigner.package" ty).
  set (b2 := String.eqb "substancedesigner.graph.textures" ty).
  set (b3 := String.eqb "substancedesigner.graph.mdle" ty).
  set (b4 := String.eqb "substancedesigner.graph.preset" ty).
  set (b5 := String.eqb "substancedesigner.package.mdl" ty).
  set (b6 := String.eqb "substancedesigner.package.archive" ty).
  induction pcks as [|pck pcks IH]; intros n.
  - cbn [session_items flat_map count_if length].
    destruct b1, b2, b3, b4, b5, b6; reflexivity.
  - cbn [session_items flat_map count_if length].
    rewrite count_if_app, IH, !count_if_app.
    unfold package_items. rewrite !count_if_app, count_resource_items.
    fold b2 b3 b4. unfold has_mdl_graph, has_comp_graph.
    destruct (existsb is_SDMDLGraph (getChildrenResources pck)),
      (existsb is_SDSBSCompGraph (getChildrenResources pck));
      unfold type_is, designer_package_shape;
      cbn [count_if item_type with_property with_icon];
      fold b1 b5 b6; clearbody b1 b2 b3 b4 b5 b6;
      destruct b1, b2, b3, b4, b5, b6; lia.
Qed.

Lemma length_session_items (parent : ItemRef) (wt : option Template)
    (pcks : list SDPackage) :
  forall n,
  length (session_items host parent wt n pcks) =
  length pcks
  + count_if is_SDSBSCompGraph (flat_map getChildrenResources pcks)
  + 2 * count_if is_SDMDLGraph (flat_map getChildrenResources pcks)
  + count_if has_mdl_graph pcks + count_if has_comp_graph pcks.
Proof.
  induction pcks as [|pck pcks IH]; intros n; [reflexivity|].
  cbn [session_items flat_map count_if length].
  rewrite length_app, IH, !count_if_app.
  unfold package_items. rewrite !length_app, length_resource_items.
  unfold has_mdl_graph, has_comp_graph.
  destruct (existsb is_SDMDLGraph (getChildrenResources pck)),
    (existsb is_SDSBSCompGraph (getChildrenResources pck));
    cbn [length]; lia.
Qed.

(** X9: census of the list returned by the Designer collector, for any
    number of packages: one package item per user package, one
    graph.textures item per compositing graph, one graph.mdle and one
    graph.preset item per MDL graph, one package.mdl item per package with
    an MDL graph and one package.archive item per package with a
    compositing graph; nothing else. *)
Theorem designer_item_census
    (settings : gmap string PluginSetting) (parent : ItemRef) (w : World) :
  let pcks := host_user_packages host in
  let rs := flat_map getChildrenResources pcks in
  exists ids w',
    collect_current_substancedesigner_session host settings parent w
      = (Ok ids, w') /\
    count_if (has_type w' "substancedesigner.package") ids = length pcks /\
    count_if (has_type w' "substancedesigner.graph.textures") ids
      = count_if is_SDSBSCompGraph rs /\
    count_if (has_type w' "substancedesigner.graph.mdle") ids
      = count_if is_SDMDLGraph rs /\
    count_if (has_type w' "substancedesigner.graph.preset") ids
      = count_if is_SDMDLGraph rs /\
    count_if (has_type w' "substancedesigner.package.mdl") ids
      = count_if has_mdl_graph pcks /\
    count_if (has_type w' "substancedesigner.package.archive") ids
      = count_if has_comp_graph pcks /\
    length ids =
      length pcks + count_if is_SDSBSCompGraph rs
      + 2 * count_if is_SDMDLGraph rs
      + count_if has_mdl_graph pcks + count_if has_comp_graph pcks.
Proof.
  intros pcks rs.
  destruct (designer_session_run host settings parent w) as [evs Hrun].
  do 2 eexists. split; [exact Hrun|].
  repeat split;
    try (erewrite count_has_type_seq by reflexivity;
         rewrite count_session_items; eval_eqb; fold pcks rs; lia).
  rewrite length_seq. apply length_session_items.
Qed.

(** X10: the list returned by the Designer collector holds each item it
    created exactly once, in creation order, and nothing else. *)
Theorem designer_returns_created_items_in_order
    (settings : gmap string PluginSetting) (parent : ItemRef) (w : World) :
  exists ids w',
    collect_current_substancedesigner_session host settings parent w
      = (Ok ids, w') /\
    NoDup ids /\
    map (fun i => items w' !! i) ids =
      map Some
        (created_items
           (collect_current_substancedesigner_session host settings parent) w).
Proof.
  destruct (designer_session_run host settings parent w) as [evs Hrun].
  do 2 eexists. split; [exact Hrun|]. split; [apply NoDup_seq|].
  erewrite created_items_app by (rewrite Hrun; reflexivity).
  cbn [items].
  generalize (session_items host parent
                match settings !! "Work Template" with
                | Some s => host_templates host (value s)
                | None => None
                end (length (items w)) (host_user_packages host)).
  generalize (items w). intros pre new. revert pre.
  induction new as [|x new IH]; intros pre; [reflexivity|].
  cbn [length seq map]. f_equal.
  - apply list_lookup_middle. reflexivity.
  - specialize (IH (pre ++ [x])).
    rewrite <- app_assoc, length_app in IH. cbn [app length] in IH.
    rewrite Nat.add_1_r in IH. exact IH.
Qed.



(** X12: on every item of the Designer collector the [publish_type] is
    the one its item type determines. *)
Theorem designer_publish_types
    (settings : gmap string PluginSetting) (parent : ItemRef) (w : World) :
  Forall
    (fun it =>
       exists pt,
         designer_publish_type (item_type it) = Some pt /\
         properties it !! "publish_type" = Some (PStr pt))
    (created_items
       (collect_current_substancedesigner_session host settings parent) w).
Proof.
  rewrite designer_created. apply Forall_forall. intros it Hin.
  destruct (session_items_cases _ _ _ _ _ Hin)
    as (pck & m & _ & [->|[[_ ->]|[[_ ->]|(r & _ & [[_ ->]|[_ [->| ->]]])]]]);
    eexists; split; reflexivity.
Qed.

(** X13: the items of the Designer collector with a [resource] property
    are exactly the three per-graph kinds.  Such an item carries a
    resource of one of the user packages together with that package, its
    [extra_fields] map [substancedesigner.graph.name] to the resource's
    identifier, and its name starts with that identifier.  Package-level
    items have neither [resource] nor [extra_fields]. *)
Theorem designer_graph_items_name_their_graph
    (settings : gmap string PluginSetting) (parent : ItemRef) (w : World) :
  Forall
    (fun it =>
       match properties it !! "resource" with
       | Some v =>
           exists pck r suffix,
             pck ∈ host_user_packages host /\
             r ∈ getChildrenResources pck /\
             v = PResource r /\
             properties it !! "package" = Some (PPackage pck) /\
             properties it !! "extra_fields" =
               Some (PDict {[ "substancedesigner.graph.name" := getIdentifier r ]}) /\
             item_name it = getIdentifier r +:+ suffix /\
             item_type it ∈ designer_graph_types
       | None =>
           properties it !! "extra_fields" = None /\
           (item_type it ∉ designer_graph_types) /\
           exists pck,
             pck ∈ host_user_packages host /\
             properties it !! "package" = Some (PPackage pck)
       end)
    (created_items
       (collect_current_substancedesigner_session host settings parent) w).
Proof.
  rewrite designer_created. apply Forall_forall. intros it Hin.
  assert (forall ty : string,
            ty = "substancedesigner.package" \/
            ty = "substancedesigner.package.mdl" \/
            ty = "substancedesigner.package.archive" ->
            ty ∉ designer_graph_types) as Hnot.
  { intros ty Hty Hel. unfold designer_graph_types in Hel.
    repeat (apply elem_of_cons in Hel as [Hel|Hel];
            [destruct Hty as [->|[->| ->]]; discriminate|]).
    inversion Hel. }
  destruct (session_items_cases _ _ _ _ _ Hin)
    as (pck & m & Hp & [->|[[_ ->]|[[_ ->]|(r & Hr & [[_ ->]|[_ [->| ->]]])]]]);
    cbn [properties designer_package_shape designer_graph_shape
         with_property with_icon item_type item_name].
  1-3: lazymatch goal with
       | |- match ?o with _ => _ end => change o with (@None PyVal)
       end.
  1-3: split; [reflexivity|]; split;
       [apply Hnot; auto | exists pck; split; [exact Hp|reflexivity]].
  all: lazymatch goal with
       | |- match ?o with _ => _ end => change o with (Some (PResource r))
       end.
  all: exists pck, r; eexists; repeat (split; [first [eassumption|reflexivity]|]).
  all: unfold designer_graph_types.
  - apply elem_of_cons; left; reflexivity.
  - apply elem_of_cons; right; apply elem_of_cons; left; reflexivity.
  - do 2 (apply elem_of_cons; right). apply elem_of_cons; left; reflexivity.
Qed.

Lemma designer_session_exact (settings : gmap string PluginSetting)
    (parent : ItemRef) (w : World) :
  let new := session_items host parent (resolved_work_template host settings)
               (length (items w)) (host_user_packages host) in
  collect_current_substancedesigner_session host settings parent w =
  (Ok (seq (length (items w)) (length new)),
   {| items := items w ++ new;
      trace := trace w ++
               match settings !! "Work Template" with
               | Some s => [EvGetTemplateByName (value s)]
               | None => []
               end;
      fs := fs w |}).
Proof.
  unfold collect_current_substancedesigner_session, resolved_work_template.
  destruct (settings !! "Work Template") as [s|]; cbn [template_of_setting].
  - unfold get_template_by_name. rewrite bind_assoc.
    unfold bind at 1, log_event at 1. rewrite bind_ret.
    rewrite packages_run. reflexivity.
  - rewrite bind_ret, packages_run, app_nil_r. reflexivity.
Qed.


(** X15: [process_current_session] of the Designer collector returns a
    list of at most one element whose concatenation is the flat list of
    [collect_current_substancedesigner_session]; it is empty exactly when
    no user package is open. *)
Theorem designer_process_result_shape
    (settings : gmap string PluginSetting) (parent : ItemRef) (w : World) :
  exists ids l,
    fst (collect_current_substancedesigner_session host settings parent w)
      = Ok ids /\
    fst (process_current_session host settings parent w) = Ok l /\
    concat l = ids /\
    length l <= 1 /\
    (l = [] <-> host_user_packages host = []).
Proof.
  destruct (designer_session_run host settings parent w) as [evs Hrun].
  rewrite (designer_process_wraps host settings parent w _ _ Hrun), Hrun.
  cbn [fst]. do 2 eexists. split; [reflexivity|]. split; [reflexivity|].
  destruct (host_user_packages host) as [|pck pcks].
  - cbn. repeat split; lia.
  - cbn [session_items package_items app length seq].
    cbn [concat]. rewrite app_nil_r. repeat split; [cbn; lia|discriminate..].
Qed.

End DesignerMore.

Section BlenderMore.
Import BlenderSessionCollector.
Variable host : Host.

(** X2: [collect_current_blender_session] always returns the reference of
    one new [blender.session] item under the given parent, with the
    Blender icon, named after the file name component of the scene path or
    "Current Blender Session" when the scene has no path.  Its only engine
    call is the name resolution made when the Work Template setting is
    present. *)
Theorem blender_session_item_named
    (settings : gmap string PluginSetting) (parent : ItemRef) (w : World) :
  exists sess w',
    collect_current_blender_session host settings parent w =
      (Ok (length (items w)), w') /\
    items w' = items w ++ [sess] /\
    fs w' = fs w /\
    trace w' = trace w ++
      match settings !! "Work Template" with
      | Some s => [EvGetTemplateByName (value s)]
      | None => []
      end /\
    item_type sess = "blender.session" /\
    type_display sess = "Blender Session" /\
    item_parent sess = parent /\
    item_icon sess = Some (icon host "blender.png") /\
    (host_bpy_filepath host = "" ->
     item_name sess = "Current Blender Session") /\
    (host_bpy_filepath host <> "" ->
     item_name sess = host_filename host (host_bpy_filepath host)).
Proof.
  unfold collect_current_blender_session.
  destruct (settings !! "Work Template") as [s|]; run_engine;
    do 2 eexists; (split; [reflexivity|]); cbn [items fs trace];
    rewrite ?app_nil_r;
    do 3 (split; [reflexivity|]);
    cbn [item_type type_display item_parent item_icon item_name
         with_property with_icon];
    do 4 (split; [reflexivity|]).
  all: split; [intros ->; reflexivity|].
  all: intros Hne; rewrite (truthy_str_nonempty _ Hne); reflexivity.
Qed.

Lemma blender_process_shape
    (settings : gmap string PluginSetting) (parent : ItemRef) (w : World) :
  exists sess geo,
    items (snd (process_current_session host settings parent w)) =
      items w ++ [sess; geo] /\
    has_icon_of_type host sess /\ has_icon_of_type host geo.
Proof.
  unfold process_current_session, collect_current_blender_session,
    _collect_session_geometry.
  destruct (settings !! "Work Template") as [s|]; run_items;
    do 2 eexists; cbn [snd items]; rewrite <- app_assoc;
    (split; [reflexivity|]); split; eexists; split; reflexivity.
Qed.

End BlenderMore.

Section AllMore.
Variable host : Host.

Lemma items_app_created {A} (m : M A) (w : World) (new : list Item) :
  items (snd (m w)) = items w ++ new ->
  items (snd (m w)) = items w ++ created_items m w.
Proof.
  intros H. rewrite (created_items_app m w new H). exact H.
Qed.

(** X16: however they end, the three [process_current_session] methods
    only append to the item store: the items present before the call are
    still there, unchanged and in place. *)
Theorem collectors_only_append
    (settings : gmap string PluginSetting) (parent : ItemRef) (w : World) :
  let painter :=
    SubstancePainterSessionCollector.process_current_session host settings parent in
  let designer :=
    SubstanceDesignerSessionCollector.process_current_session host settings parent in
  let blender :=
    BlenderSessionCollector.process_current_session host settings parent in
  items (snd (painter w)) = items w ++ created_items painter w /\
  items (snd (designer w)) = items w ++ created_items designer w /\
  items (snd (blender w)) = items w ++ created_items blender w.
Proof.
  cbv zeta. split; [|split].
  - destruct (painter_process_shape host settings parent w)
      as (sess & others & H & _).
    eapply items_app_created. exact H.
  - eapply items_app_created.
    erewrite designer_process_wraps by apply designer_session_exact.
    reflexivity.
  - destruct (blender_process_shape host settings parent w)
      as (sess & geo & H & _).
    eapply items_app_created. exact H.
Qed.

(** X17: however the three [process_current_session] methods end, every
    item they created has an icon, and it is the icon file of the item's
    type in the hook's icon folder. *)
Theorem collectors_icon_by_type
    (settings : gmap string PluginSetting) (parent : ItemRef) (w : World) :
  Forall (has_icon_of_type host)
    (created_items
       (SubstancePainterSessionCollector.process_current_session
          host settings parent) w) /\
  Forall (has_icon_of_type host)
    (created_items
       (SubstanceDesignerSessionCollector.process_current_session
          host settings parent) w) /\
  Forall (has_icon_of_type host)
    (created_items
       (BlenderSessionCollector.process_current_session
          host settings parent) w).
Proof.
  split; [|split].
  - destruct (painter_process_shape host settings parent w)
      as (sess & others & H & Hs & Ho).
    rewrite (created_items_app _ _ _ H). constructor; assumption.
  - rewrite designer_process_created, designer_created.
    apply Forall_forall. intros it Hin.
    destruct (session_items_cases _ _ _ _ _ _ Hin)
      as (pck & m & _ & [->|[[_ ->]|[[_ ->]|(r & _ & [[_ ->]|[_ [->| ->]]])]]]);
      eexists; split; reflexivity.
  - destruct (blender_process_shape host settings parent w)
      as (sess & geo & H & Hs & Hg).
    rewrite (created_items_app _ _ _ H). repeat constructor; assumption.
Qed.

End AllMore.

Section SettingsMore.

Lemma dict_update_lookup {V} (d upd : gmap string V) (k : string) :
  dict_update d upd !! k =
  match upd !! k with
  | Some v => Some v
  | None => d !! k
  end.
Proof.
  unfold dict_update. rewrite lookup_union.
  destruct (upd !! k), (d !! k); reflexivity.
Qed.

(** X18: in the [settings] property of each collector the collector's
    own entries replace base-class entries of the same name, and every
    other base-class entry is kept.  Work Template is always declared as a
    template with default [None]; the Painter collector also declares Work
    Export Template and Publish Textures as Folder (a bool, default
    [True]). *)
Theorem collector_settings_override_base
    (base : option (gmap string SettingSchema)) :
  (SubstancePainterSessionCollector.settings base !! "Work Template"
     = Some work_template_schema /\
   (exists d1,
      SubstancePainterSessionCollector.settings base !! "Work Export Template"
        = Some {| schema_type := "template"; schema_default := VNone;
                  schema_description := d1 |}) /\
   (exists d2,
      SubstancePainterSessionCollector.settings base !! "Publish Textures as Folder"
        = Some {| schema_type := "bool"; schema_default := VBool true;
                  schema_description := d2 |}) /\
   (forall k, k <> "Work Template" -> k <> "Work Export Template" ->
              k <> "Publish Textures as Folder" ->
      SubstancePainterSessionCollector.settings base !! k = default ∅ base !! k))
  /\
  (SubstanceDesignerSessionCollector.settings base !! "Work Template"
     = Some work_template_schema /\
   (forall k, k <> "Work Template" ->
      SubstanceDesignerSessionCollector.settings base !! k = default ∅ base !! k))
  /\
  (BlenderSessionCollector.settings base !! "Work Template"
     = Some work_template_schema /\
   (forall k, k <> "Work Template" ->
      BlenderSessionCollector.settings base !! k = default ∅ base !! k)).
Proof.
  unfold SubstancePainterSessionCollector.settings,
    SubstanceDesignerSessionCollector.settings,
    BlenderSessionCollector.settings.
  cbv zeta. rewrite !dict_update_lookup.
  split; [|split].
  - split; [reflexivity|]. split; [eexists; reflexivity|].
    split; [eexists; reflexivity|].
    intros k H1 H2 H3. rewrite dict_update_lookup.
    rewrite lookup_insert_ne, lookup_insert_ne, lookup_singleton_ne by congruence.
    reflexivity.
  - split; [reflexivity|].
    intros k H1. rewrite dict_update_lookup, lookup_singleton_ne by congruence.
    reflexivity.
  - split; [reflexivity|].
    intros k H1. rewrite dict_update_lookup, lookup_singleton_ne by congruence.
    reflexivity.
Qed.

End SettingsMore.

Section IconPath.

Lemma append_assoc (a b c : string) : (a +:+ b) +:+ c = a +:+ b +:+ c.
Proof.
  induction a as [|x a IH]; [reflexivity|].
  change (String x ((a +:+ b) +:+ c) = String x (a +:+ b +:+ c)).
  rewrite IH. reflexivity.
Qed.

Lemma endswith_sep_append (a b : string) :
  b <> "" -> os_path.endswith_sep (a +:+ b) = os_path.endswith_sep b.
Proof.
  intros Hb. induction a as [|x a IH]; [reflexivity|].
  change (os_path.endswith_sep (String x (a +:+ b)) = os_path.endswith_sep b).
  cbn [os_path.endswith_sep].
  destruct (a +:+ b) eqn:Hab.
  - destruct a; [cbn in Hab; contradiction|discriminate].
  - exact IH.
Qed.

Lemma append_nonempty (a b : string) : b <> "" -> String.eqb (a +:+ b) "" = false.
Proof.
  intros Hb. apply String.eqb_neq. destruct a; [exact Hb|discriminate].
Qed.

(** X19: icon paths are the hook's directory, then [../icons/], then the
    file name (a separator being inserted after the directory unless it is
    empty or already ends with one). *)
Theorem icon_path_layout (host : Host) (name : string) :
  os_path.startswith_sep name = false ->
  let d := host_disk_location host in
  icon host name =
    if String.eqb d "" || os_path.endswith_sep d
    then d +:+ "../icons/" +:+ name
    else d +:+ "/../icons/" +:+ name.
Proof.
  intros Hname d. unfold icon. fold d.
  cbn [os_path.join]. change (os_path.startswith_sep os_path.pardir) with false.
  change (os_path.startswith_sep "icons") with false. rewrite Hname. cbv iota.
  destruct (String.eqb d "" || os_path.endswith_sep d).
  - rewrite append_nonempty, endswith_sep_append by discriminate.
    change (os_path.endswith_sep os_path.pardir) with false. cbn [orb].
    rewrite append_nonempty, endswith_sep_append by discriminate.
    change (os_path.endswith_sep ("/" +:+ "icons")) with false. cbn [orb].
    rewrite !append_assoc. reflexivity.
  - rewrite append_nonempty, endswith_sep_append by discriminate.
    change (os_path.endswith_sep ("/" +:+ os_path.pardir)) with false. cbn [orb].
    rewrite append_nonempty, endswith_sep_append by discriminate.
    change (os_path.endswith_sep ("/" +:+ "icons")) with false. cbn [orb].
    rewrite !append_assoc. reflexivity.
Qed.

End IconPath.

(** ** Further worked sessions *)

Lemma painter_session_item_named_witness :
  (exists sess,
     created_items
       (SubstancePainterSessionCollector.collect_current_substancepainter_session
          sample_host ∅ 0) (sample_world ∅) = [sess] /\
     item_name sess = "wood.spp") /\
  (exists sess,
     created_items
       (SubstancePainterSessionCollector.collect_current_substancepainter_session
          idle_host ∅ 0) (sample_world ∅) = [sess] /\
     item_name sess = "Current Substance Painter Session").
Proof.
  split.
  - destruct (painter_session_item_named sample_host ∅ 0 (sample_world ∅))
      as (sess & w' & Hrun & Hit & _ & _ & _ & _ & _ & _ & Hname).
    exists sess. split.
    + apply created_items_app. rewrite Hrun. exact Hit.
    + rewrite (Hname "/proj/work/wood.spp");
        [vm_compute; reflexivity | reflexivity | discriminate].
  - destruct (painter_session_item_named idle_host ∅ 0 (sample_world ∅))
      as (sess & w' & Hrun & Hit & _ & _ & _ & _ & _ & Hname & _).
    exists sess. split.
    + apply created_items_app. rewrite Hrun. exact Hit.
    + apply Hname. reflexivity.
Defined.

Lemma blender_session_item_named_witness :
  (exists sess,
     created_items
       (BlenderSessionCollector.collect_current_blender_session
          sample_host ∅ 0) (sample_world ∅) = [sess] /\
     item_name sess = "scene.blend") /\
  (exists sess,
     created_items
       (BlenderSessionCollector.collect_current_blender_session
          idle_host ∅ 0) (sample_world ∅) = [sess] /\
     item_name sess = "Current Blender Session").
Proof.
  split.
  - destruct (blender_session_item_named sample_host ∅ 0 (sample_world ∅))
      as (sess & w' & Hrun & Hit & _ & _ & _ & _ & _ & _ & _ & Hname).
    exists sess. split.
    + apply created_items_app. rewrite Hrun. exact Hit.
    + rewrite Hname; [vm_compute; reflexivity | discriminate].
  - destruct (blender_session_item_named idle_host ∅ 0 (sample_world ∅))
      as (sess & w' & Hrun & Hit & _ & _ & _ & _ & _ & _ & Hname & _).
    exists sess. split.
    + apply created_items_app. rewrite Hrun. exact Hit.
    + apply Hname. reflexivity.
Defined.

Lemma painter_mode_selection_witness :
  (exists sess others,
     created_items
       (SubstancePainterSessionCollector.process_current_session
          sample_host ∅ 0) (sample_world ∅) = sess :: others /\
     Forall (fun it => item_type it = "substancepainter.texture") others) /\
  (exists sess others,
     created_items
       (SubstancePainterSessionCollector.process_current_session
          sample_host folder_only_settings 0) (sample_world ∅) = sess :: others /\
     length others <= 1 /\
     Forall (fun it => item_type it = "substancepainter.textures") others).
Proof.
  split.
  - destruct (painter_mode_selection sample_host ∅ 0 (sample_world ∅))
      as (sess & others & Hc & _ & _ & _ & Htex).
    exists sess, others. split; [exact Hc|]. apply Htex. reflexivity.
  - destruct (painter_mode_selection sample_host folder_only_settings 0
                (sample_world ∅))
      as (sess & others & Hc & _ & _ & Hfold & _).
    exists sess, others. split; [exact Hc|]. apply Hfold. reflexivity.
Defined.

Lemma painter_export_failure_keeps_session_witness :
  fst (SubstancePainterSessionCollector.process_current_session
         failing_host ∅ 0 (sample_world ∅))
    = Raise (HostError "export failed") /\
  exists sess,
    created_items
      (SubstancePainterSessionCollector.process_current_session
         failing_host ∅ 0) (sample_world ∅) = [sess] /\
    item_type sess = "substancepainter.session".
Proof.
  destruct (painter_export_failure_keeps_session failing_host ∅ 0
              (sample_world ∅) None (HostError "export failed") ∅)
    as (Hr & _ & Hs); [vm_compute; reflexivity | vm_compute; reflexivity |].
  split; [exact Hr|exact Hs].
Defined.

Lemma painter_resolution_failure_before_export_witness :
  fst (SubstancePainterSessionCollector.process_current_session
         mismatch_host sample_settings 0 (sample_world ∅))
    = Raise (TankError "path does not match template") /\
  Forall is_query
    (new_events
       (SubstancePainterSessionCollector.process_current_session
          mismatch_host sample_settings 0) (sample_world ∅)).
Proof.
  destruct (painter_resolution_failure_before_export mismatch_host
              sample_settings 0 (sample_world ∅)
              (TankError "path does not match template"))
    as (Hr & _ & Hq & _); [vm_compute; reflexivity|].
  split; [exact Hr|exact Hq].
Defined.

Lemma get_export_path_unresolved_template_witness :
  fst (SubstancePainterSessionCollector.get_export_path
         sample_host unconfigured_settings (sample_world ∅)) = Ok None.
Proof.
  apply (get_export_path_unresolved_template sample_host unconfigured_settings
           (sample_world ∅) "Work Template" {| value := VNone |});
    [left; reflexivity | vm_compute; reflexivity | reflexivity].
Defined.

Lemma painter_folder_falls_back_to_project_path_witness :
  exists sess tex,
    created_items
      (SubstancePainterSessionCollector.process_current_session
         sample_host folder_only_settings 0) (sample_world ∅) = [sess; tex] /\
    item_type tex = "substancepainter.textures" /\
    properties tex !! "path" = Some (PStr "/tmp").
Proof.
  apply (painter_folder_falls_back_to_project_path sample_host
           folder_only_settings 0 (sample_world ∅) "/tmp"
           (sample_export_info "/tmp")
           (snd (host_export sample_host (Some "/tmp") ∅))
           "a_diffuse.png" ["a_normal.png"]);
    first [discriminate | left; vm_compute; reflexivity | vm_compute; reflexivity].
Defined.

Lemma designer_process_result_shape_witness :
  fst (SubstanceDesignerSessionCollector.process_current_session
         idle_host ∅ 0 (sample_world ∅)) = Ok [].
Proof.
  destruct (designer_process_result_shape idle_host ∅ 0 (sample_world ∅))
    as (ids & l & _ & Hp & _ & _ & Hiff).
  rewrite Hp. f_equal. apply Hiff. reflexivity.
Defined.

Lemma collector_settings_override_base_witness :
  SubstancePainterSessionCollector.settings (Some sample_base_settings)
    !! "File Types" = sample_base_settings !! "File Types" /\
  SubstanceDesignerSessionCollector.settings (Some sample_base_settings)
    !! "File Types" = sample_base_settings !! "File Types" /\
  BlenderSessionCollector.settings (Some sample_base_settings)
    !! "File Types" = sample_base_settings !! "File Types".
Proof.
  destruct (collector_settings_override_base (Some sample_base_settings))
    as ((_ & _ & _ & Hp) & (_ & Hd) & (_ & Hb)).
  split; [|split].
  - apply Hp; discriminate.
  - apply Hd; discriminate.
  - apply Hb; discriminate.
Defined.

Lemma icon_path_layout_witness :
  icon sample_host "texture.png" =
  "/config/hooks/tk-multi-publish2/basic/../icons/texture.png".
Proof.
  rewrite (icon_path_layout sample_host "texture.png"); reflexivity.
Defined.
